(** * BPMorph: the tempo-changing pipeline of [app/main.py]

    A shallow embedding of the six functions of [main.py] and of the
    [__main__] driver, together with the properties of the pipeline that
    its specification states.

    The program is a sequence of calls into external collaborators (pydub,
    librosa, mutagen, the [rubberband] binary, [os]).  The collaborators are
    not part of the repository; the embedding gives each of them the
    observable behaviour the program relies on, acting on an explicit
    [world]:

    - the file system is a finite map from path strings to files; two
      different strings name two different files (no links, no path
      normalisation); a file can be written at any path (the folders named
      in a path exist and are writable) and an existing file can be removed;
    - a file carries the waveform a decoder finds in it (if any), the
      container it was written in, and its ID3 tag set (if any);
    - what the collaborators decide on their own is a field of the world:
      whether [rubberband] is installed, its exit status and the waveform it
      writes, what the beat tracker returns for a waveform (an array of
      tempo estimates, or a plain float when it finds no onset), the tag
      header the MP3 encoder stamps on its output, the listing of a folder;
    - every call that leaves the program is appended to a trace.

    Numbers: the tempo and the factor are Python floats (or ints).  They are
    embedded as exact rationals [Q]; rounding, infinities and NaN are not
    modelled.  [None] is [None] of [option]. *)

From Stdlib Require Import ZArith QArith String Ascii List Lia.
From stdpp Require Import base option gmap strings pretty.

Local Open Scope string_scope.

(** ** Python values *)

(** An optional number: the type of [toBPM] and [factor]. *)
Abbreviation pyval := (option Q).

(** Python truthiness: [None] and zero are falsy, every other number is
    truthy. *)
Definition truthy (v : pyval) : bool :=
  match v with
  | None => false
  | Some q => negb (Qeq_bool q 0)
  end.

(** Truthiness of an [int]. *)
Definition truthy_int (n : Z) : bool := negb (n =? 0)%Z.

(** ** Strings *)

(** [s.endswith(suffix)] *)
Definition endswith (s suffix : string) : bool :=
  Nat.leb (String.length suffix) (String.length s) &&
  String.eqb
    (substring (String.length s - String.length suffix) (String.length suffix) s)
    suffix.

(** [s.startswith(p)] *)
Definition startswith (s p : string) : bool := String.prefix p s.

(** [s.replace(old, new)] for a non-empty [old]: the occurrences of [old]
    are found from left to right, without overlap.  [skip] counts the
    characters of a matched occurrence still to be dropped. *)
Fixpoint replace_from (old new : string) (skip : nat) (s : string) : string :=
  match s with
  | EmptyString => EmptyString
  | String c s' =>
      match skip with
      | S k => replace_from old new k s'
      | O =>
          if String.prefix old s
          then new ++ replace_from old new (String.length old - 1) s'
          else String c (replace_from old new 0 s')
      end
  end.

Definition str_replace (s old new : string) : string := replace_from old new 0 s.

(** [old in s] *)
Fixpoint contains (old s : string) : bool :=
  String.prefix old s ||
  match s with
  | EmptyString => false
  | String _ s' => contains old s'
  end.

(** [str(n)] for an [int]. *)
Definition str_int (n : Z) : string := pretty n.

(** [os.path.join(a, b)] (POSIX). *)
Definition os_path_join (a b : string) : string :=
  if startswith b "/" then b
  else if String.eqb a "" || endswith a "/" then a ++ b
  else a ++ "/" ++ b.

(** ** The world *)

(** A waveform, as a decoder returns it.  The program never looks inside. *)
Abbreviation sound := string.

(** An ID3 tag set: frames and their values. *)
Abbreviation tagset := (list (string * string)).

Record file : Type := File {
  audio : option sound;     (* [None]: not decodable as audio *)
  container : string;       (* the format the file was written in *)
  tags : option tagset      (* [None]: no ID3 header *)
}.

(** An element of an argument vector: a literal, or [str(v)] of a value
    (the decimal rendering of a float is left symbolic). *)
Inductive arg : Type :=
| Lit (s : string)
| StrOf (v : pyval).

(** The status lines of [print]. *)
Inductive message : Type :=
| MsgLoading (inputSong : string)
| MsgConverted (inputAudio : string)
| MsgOriginalBPM (originalBPM : Q)
| MsgChangeFactor (factor : Q)
| MsgStretched (tempOut : string)
| MsgExported (outputAudio : string)
| MsgMetadataCopied (originalFile newFile : string).

(** The calls that leave the program. *)
Inductive event : Type :=
| EvFromFile (path : string)                 (* AudioSegment.from_file *)
| EvFromWav (path : string)                  (* AudioSegment.from_wav *)
| EvExport (path format : string)            (* AudioSegment.export *)
| EvLibrosaLoad (path : string)              (* librosa.load *)
| EvBeatTrack                                (* librosa.beat.beat_track *)
| EvSubprocessRun (argv : list arg)          (* subprocess.run *)
| EvRename (src dst : string)                (* os.rename *)
| EvExists (path : string)                   (* os.path.exists *)
| EvRemove (path : string)                   (* os.remove *)
| EvID3 (path : string)                      (* ID3(path) *)
| EvID3Delete (path : string)                (* tags.delete(path) *)
| EvID3Save (path : string)                  (* tags.save(path) *)
| EvListdir (folder : string)                (* os.listdir *)
| EvPrint (m : message).                     (* print *)

(** The exceptions that can travel through the program. *)
Inductive exn : Type :=
| ValueError (msg : string)
| TypeError
| IndexError
| ZeroDivisionError
| FileNotFoundError (path : string)
| CouldntDecodeError (path : string)
| NoBackendError (path : string)
| CalledProcessError (returncode : Z) (cmd : list arg)
| ID3NoHeaderError (path : string).

(** The tempo the beat tracker returns: an array of estimates or, when it
    finds no onset, a plain float. *)
Inductive tempo : Type :=
| TempoArray (xs : list Q)
| TempoScalar (x : Q).

Record world : Type := World {
  fs : gmap string file;
  listing : gmap string (list string);
  (* the installed binary, if any: exit status and waveform written for an
     argument vector and an input waveform *)
  rubberband : option (list arg -> sound -> Z * sound);
  (* the tempo the beat tracker returns for a waveform *)
  beat_track : sound -> tempo;
  (* the tag header the MP3 encoder leaves on a file it writes *)
  encoder_tags : option tagset;
  trace : list event
}.

Definition set_fs (f : gmap string file -> gmap string file) (w : world) : world :=
  World (f (fs w)) (listing w) (rubberband w) (beat_track w) (encoder_tags w) (trace w).

Definition add_event (e : event) (w : world) : world :=
  World (fs w) (listing w) (rubberband w) (beat_track w) (encoder_tags w) (trace w ++ [e]).

(** ** Computations: state and exceptions *)

Inductive result (A : Type) : Type :=
| Ok (a : A)
| Raise (e : exn).
Arguments Ok {A} a.
Arguments Raise {A} e.

Definition io (A : Type) : Type := world -> result A * world.

#[global] Instance io_ret : MRet io := fun A a w => (Ok a, w).

#[global] Instance io_bind : MBind io := fun A B k m w =>
  match m w with
  | (Ok a, w') => k a w'
  | (Raise e, w') => (Raise e, w')
  end.

Definition raise {A : Type} (e : exn) : io A := fun w => (Raise e, w).

(** [try: m except Exception: pass] *)
Definition try_pass (m : io unit) : io unit := fun w =>
  match m w with
  | (Ok a, w') => (Ok a, w')
  | (Raise _, w') => (Ok tt, w')
  end.

(** Nothing to do (the [else] branch an [if] statement leaves out). *)
Definition pass : io unit := mret tt.

Definition emit (e : event) : io unit := fun w => (Ok tt, add_event e w).

Definition get_world : io world := fun w => (Ok w, w).

Definition modify_fs (f : gmap string file -> gmap string file) : io unit :=
  fun w => (Ok tt, set_fs f w).

(** [for x in xs: body(x)] *)
Fixpoint for_each {A : Type} (xs : list A) (body : A -> io unit) : io unit :=
  match xs with
  | [] => pass
  | x :: xs' => body x ;; for_each xs' body
  end.

(** ** The collaborators *)

Definition print (m : message) : io unit := emit (EvPrint m).

(** Decoding the file at [path]. *)
Definition decode (path : string) : io sound :=
  w ← get_world;
  match fs w !! path with
  | None => raise (FileNotFoundError path)
  | Some f =>
      match audio f with
      | None => raise (CouldntDecodeError path)
      | Some s => mret s
      end
  end.

(** [AudioSegment.from_file(path)] *)
Definition AudioSegment_from_file (path : string) : io sound :=
  emit (EvFromFile path) ;; decode path.

(** [AudioSegment.from_wav(path)] *)
Definition AudioSegment_from_wav (path : string) : io sound :=
  emit (EvFromWav path) ;;
  w ← get_world;
  match fs w !! path with
  | None => raise (FileNotFoundError path)
  | Some f =>
      if String.eqb (container f) "wav"
      then match audio f with
           | None => raise (CouldntDecodeError path)
           | Some s => mret s
           end
      else raise (CouldntDecodeError path)
  end.

(** [segment.export(path, format=format)]: a new file replaces whatever was
    at [path]. *)
Definition export (s : sound) (path format : string) : io unit :=
  emit (EvExport path format) ;;
  w ← get_world;
  modify_fs (insert path
    (File (Some s) format
          (if String.eqb format "mp3" then encoder_tags w else None))).

(** [librosa.load(path)] *)
Definition librosa_load (path : string) : io sound :=
  emit (EvLibrosaLoad path) ;;
  w ← get_world;
  match fs w !! path with
  | None => raise (FileNotFoundError path)
  | Some f =>
      match audio f with
      | None => raise (NoBackendError path)
      | Some s => mret s
      end
  end.

(** [librosa.beat.beat_track(y=y, sr=sr)], first component. *)
Definition librosa_beat_track (y : sound) : io tempo :=
  emit EvBeatTrack ;;
  w ← get_world;
  mret (beat_track w y).

(** [subprocess.run(argv, check=True)] for the [rubberband] command line,
    reading [inputWav] and writing [outputWav]. *)
Definition subprocess_run_check (argv : list arg) (inputWav outputWav : string) : io unit :=
  emit (EvSubprocessRun argv) ;;
  w ← get_world;
  match rubberband w with
  | None => raise (FileNotFoundError "rubberband")
  | Some bin =>
      match fs w !! inputWav ≫= audio with
      | None => raise (CalledProcessError 1 argv)
      | Some s =>
          let '(status, out) := bin argv s in
          if (status =? 0)%Z
          then modify_fs (insert outputWav (File (Some out) "wav" None))
          else raise (CalledProcessError status argv)
      end
  end.

(** [os.rename(src, dst)] *)
Definition os_rename (src dst : string) : io unit :=
  emit (EvRename src dst) ;;
  w ← get_world;
  match fs w !! src with
  | None => raise (FileNotFoundError src)
  | Some f => modify_fs (fun m => <[dst := f]> (delete src m))
  end.

(** [os.path.exists(path)] *)
Definition os_path_exists (path : string) : io bool :=
  emit (EvExists path) ;;
  w ← get_world;
  mret (bool_decide (is_Some (fs w !! path))).

(** [os.remove(path)] *)
Definition os_remove (path : string) : io unit :=
  emit (EvRemove path) ;;
  w ← get_world;
  match fs w !! path with
  | None => raise (FileNotFoundError path)
  | Some _ => modify_fs (delete path)
  end.

(** [if os.path.exists(path): os.remove(path)] *)
Definition remove_if_exists (path : string) : io unit :=
  b ← os_path_exists path;
  if b : bool then os_remove path else pass.

(** [os.listdir(folder)] *)
Definition os_listdir (folder : string) : io (list string) :=
  emit (EvListdir folder) ;;
  w ← get_world;
  match listing w !! folder with
  | None => raise (FileNotFoundError folder)
  | Some names => mret names
  end.

(** [ID3(path)]: the tag set of the file. *)
Definition ID3 (path : string) : io tagset :=
  emit (EvID3 path) ;;
  w ← get_world;
  match fs w !! path with
  | None => raise (FileNotFoundError path)
  | Some f =>
      match tags f with
      | None => raise (ID3NoHeaderError path)
      | Some t => mret t
      end
  end.

(** [tags.delete(path)]: the file at [path] loses its tag header. *)
Definition ID3_delete (path : string) : io unit :=
  emit (EvID3Delete path) ;;
  w ← get_world;
  match fs w !! path with
  | None => raise (FileNotFoundError path)
  | Some f => modify_fs (insert path (File (audio f) (container f) None))
  end.

(** [tags.save(path)]: the file at [path] gets the tag set [t]; a missing
    file is created, holding the tags only. *)
Definition ID3_save (t : tagset) (path : string) : io unit :=
  emit (EvID3Save path) ;;
  w ← get_world;
  match fs w !! path with
  | None => modify_fs (insert path (File None "mp3" (Some t)))
  | Some f => modify_fs (insert path (File (audio f) (container f) (Some t)))
  end.

(** [bpm[0]]: the first element of an array; a plain float has no
    elements to subscript. *)
Definition subscript0 (bpm : tempo) : io Q :=
  match bpm with
  | TempoArray (x :: _) => mret x
  | TempoArray [] => raise IndexError
  | TempoScalar _ => raise TypeError
  end.

(** [a / b] for a float [a]. *)
Definition truediv (a : Q) (b : pyval) : io Q :=
  match b with
  | None => raise TypeError
  | Some d => if Qeq_bool d 0 then raise ZeroDivisionError else mret (a / d)%Q
  end.

(** ** The program *)

Definition copyMetadata (originalFile newFile : string) : io unit :=
  original_tags ← ID3 originalFile;
  try_pass (
    new_tags ← ID3 newFile;
    ID3_delete newFile) ;;
  ID3_save original_tags newFile ;;
  print (MsgMetadataCopied originalFile newFile).

Definition detectBPM (filePath : string) : io Q :=
  y ← librosa_load filePath;
  bpm ← librosa_beat_track y;
  subscript0 bpm.

Definition convertToWav (inputPath outputPath : string) : io unit :=
  audio ← AudioSegment_from_file inputPath;
  export audio outputPath "wav".

Definition rubberband_argv (inputWav outputWav : string) (applyFactor : pyval) : list arg :=
  [ Lit "rubberband";
    Lit "-t"; StrOf applyFactor;
    Lit "--pitch"; Lit "0";
    Lit "--crisp"; Lit "5";
    Lit inputWav;
    Lit outputWav ].

Definition stretchAudioWithRubberband (inputWav outputWav : string) (applyFactor : pyval) : io unit :=
  subprocess_run_check (rubberband_argv inputWav outputWav applyFactor) inputWav outputWav.

Definition tempInp : string := "TemporalInp.wav".
Definition tempOut : string := "TemporalOut.wav".

Definition msg_neither : string := "Either 'toBPM' or 'factor' must be provided.".
Definition msg_both : string := "Only one of 'toBPM' or 'factor' should be provided.".

(** The statements of [changeBPM] after the two argument checks. *)
Definition changeBPM_body (inputAudio outputAudio : string) (toBPM factor : pyval) : io unit :=
  convertToWav inputAudio tempInp ;;
  print (MsgConverted inputAudio) ;;
  factor ← (if truthy toBPM
            then
              originalBPM ← detectBPM tempInp;
              print (MsgOriginalBPM originalBPM) ;;
              factor ← truediv originalBPM toBPM;
              print (MsgChangeFactor factor) ;;
              mret (Some factor)
            else mret factor);
  stretchAudioWithRubberband tempInp tempOut factor ;;
  print (MsgStretched tempOut) ;;
  (if endswith outputAudio ".mp3"
   then
     stretched ← AudioSegment_from_wav tempOut;
     export stretched outputAudio "mp3"
   else os_rename tempOut outputAudio) ;;
  remove_if_exists tempInp ;;
  remove_if_exists tempOut ;;
  print (MsgExported outputAudio).

Definition changeBPM (inputAudio outputAudio : string) (toBPM factor : pyval) : io unit :=
  if negb (truthy toBPM) && negb (truthy factor)
  then raise (ValueError msg_neither)
  else if truthy toBPM && truthy factor
  then raise (ValueError msg_both)
  else changeBPM_body inputAudio outputAudio toBPM factor.

(** The name [main] gives to the output. *)
Definition outputSong (bpm : Z) (inputSong : string) : string :=
  str_replace inputSong ".mp3" ("_" ++ str_int bpm ++ "BPM.mp3").

Definition main (bpm : Z) (factor : pyval) (inputSong : string) : io unit :=
  print (MsgLoading inputSong) ;;
  let outputSong := outputSong bpm inputSong in
  (if truthy factor
   then changeBPM inputSong outputSong None factor
   else if truthy_int bpm
   then changeBPM inputSong outputSong (Some (inject_Z bpm)) None
   else pass) ;;
  copyMetadata inputSong outputSong.

(** The [__main__] block, after argument parsing. *)
Definition run (folder : string) (bpm : Z) : io unit :=
  files ← os_listdir folder;
  for_each files (fun file =>
    let filePath := os_path_join folder file in
    main bpm None filePath).

(** ** Stages of [changeBPM]

    The statements of [changeBPM] from the call of the stretcher on: the
    stretching, the re-encoding or renaming, the removal of the temporary
    files and the final status line. *)
Definition stretch_and_export (outputAudio : string) (factor : pyval) : io unit :=
  stretchAudioWithRubberband tempInp tempOut factor ;;
  print (MsgStretched tempOut) ;;
  (if endswith outputAudio ".mp3"
   then
     stretched ← AudioSegment_from_wav tempOut;
     export stretched outputAudio "mp3"
   else os_rename tempOut outputAudio) ;;
  remove_if_exists tempInp ;;
  remove_if_exists tempOut ;;
  print (MsgExported outputAudio).

(** The world once [inputAudio], holding the waveform [s], has been converted
    to the temporary WAV. *)
Definition converted (inputAudio : string) (s : sound) (w : world) : world :=
  add_event (EvPrint (MsgConverted inputAudio))
    (set_fs (insert tempInp (File (Some s) "wav" None))
       (add_event (EvExport tempInp "wav")
          (add_event (EvFromFile inputAudio) w))).

(** The world once the tempo [originalBPM] has been detected on the temporary
    WAV and the factor computed. *)
Definition detected (originalBPM factor : Q) (w : world) : world :=
  add_event (EvPrint (MsgChangeFactor factor))
    (add_event (EvPrint (MsgOriginalBPM originalBPM))
       (add_event EvBeatTrack
          (add_event (EvLibrosaLoad tempInp) w))).

(** The events of tempo detection. *)
Definition is_detection (e : event) : Prop :=
  match e with
  | EvLibrosaLoad _ | EvBeatTrack => True
  | _ => False
  end.

(** A stretcher that cannot succeed: not installed, or exiting with a
    non-zero status whatever it is given. *)
Definition rubberband_fails (w : world) : Prop :=
  rubberband w = None \/
  exists bin, rubberband w = Some bin /\ forall argv s, fst (bin argv s) <> 0%Z.

(** The calls of the binary. *)
Definition is_run (e : event) : Prop :=
  match e with
  | EvSubprocessRun _ => True
  | _ => False
  end.

(** The beat tracker returns an array for the waveform [s], and
    [originalBPM] is its first element. *)
Definition tempo_found (w : world) (s : sound) (originalBPM : Q) : Prop :=
  exists more, beat_track w s = TempoArray (originalBPM :: more).

(** The factor [changeBPM] hands to the stretcher, for a detected tempo
    [originalBPM]: the quotient when a target BPM is given, the [factor]
    argument otherwise. *)
Definition factor_used (toBPM factor : pyval) (originalBPM : Q) : pyval :=
  if truthy toBPM
  then match toBPM with
       | Some bpm => Some (originalBPM / bpm)%Q
       | None => None
       end
  else factor.

(** The file [changeBPM] leaves at the output path: the stretched waveform,
    re-encoded as MP3 or as the stretcher wrote it. *)
Definition output_file (outputAudio : string) (out : sound) (w : world) : file :=
  if endswith outputAudio ".mp3"
  then File (Some out) "mp3" (encoder_tags w)
  else File (Some out) "wav" None.

(** The events of the tempo pipeline proper: decoding, detection, the call
    of the binary. *)
Definition is_pipeline (e : event) : Prop :=
  match e with
  | EvFromFile _ | EvFromWav _ | EvExport _ _ | EvLibrosaLoad _ | EvBeatTrack
  | EvSubprocessRun _ | EvRename _ _ | EvRemove _ | EvExists _ => True
  | _ => False
  end.

(** The file a tag set [t] is saved onto: the file that was there, retagged,
    or a new file with the tags only. *)
Definition retagged (old : option file) (t : tagset) : file :=
  match old with
  | Some g => File (audio g) (container g) (Some t)
  | None => File None "mp3" (Some t)
  end.

(** ** Sample worlds *)

Definition song_tags : tagset := [("TIT2", "Song"); ("TPE1", "Artist")].

Definition song_mp3 : file := File (Some "song") "mp3" (Some song_tags).
Definition take_wav : file := File (Some "take") "wav" (Some song_tags).
Definition cover_jpg : file := File None "jpg" None.

(** A stretcher that always succeeds. *)
Definition rubberband_ok : list arg -> sound -> Z * sound :=
  fun _ s => (0%Z, s ++ "~").

(** A stretcher that always exits with status 2. *)
Definition rubberband_failing : list arg -> sound -> Z * sound :=
  fun _ s => (2%Z, s).

(** A folder [music] with one MP3 and one WAV, [rubberband] installed, every
    recording detected at 120 BPM. *)
Definition studio : world :=
  World (<["music/song.mp3" := song_mp3]> (<["music/take.wav" := take_wav]> ∅))
        (<["music" := ["song.mp3"; "take.wav"]]> ∅)
        (Some rubberband_ok)
        (fun _ => TempoArray [120%Q])
        (Some [("TSSE", "Lavf")])
        [].

(** The same folder on a machine without [rubberband]. *)
Definition studio_no_rubberband : world :=
  World (fs studio) (listing studio) None (beat_track studio) (encoder_tags studio) [].

(** The same folder, with recordings in which the beat tracker finds no
    onset. *)
Definition studio_silent : world :=
  World (fs studio) (listing studio) (Some rubberband_ok) (fun _ => TempoScalar 0%Q)
        (encoder_tags studio) [].

(** The same folder with a [rubberband] that fails. *)
Definition studio_rubberband_failing : world :=
  World (fs studio) (listing studio) (Some rubberband_failing) (beat_track studio)
        (encoder_tags studio) [].

(** A folder whose first entry is not an audio file. *)
Definition attic : world :=
  World (<["attic/cover.jpg" := cover_jpg]> (<["attic/song.mp3" := song_mp3]> ∅))
        (<["attic" := ["cover.jpg"; "song.mp3"]]> ∅)
        (Some rubberband_ok)
        (fun _ => TempoArray [120%Q])
        None
        [].

(** A machine with an empty folder. *)
Definition cellar : world :=
  World ∅ (<["cellar" := []]> ∅) (Some rubberband_ok) (fun _ => TempoArray [120%Q]) None [].

(** ** Vocabulary of the properties *)

(** [steps R m]: every run of [m] takes a world to one related to it by [R],
    whether it returns or raises. *)
Definition steps {A : Type} (R : relation world) (m : io A) : Prop :=
  forall w, R w (snd (m w)).

(** [emits P]: the trace has grown, by events that satisfy [P]. *)
Definition emits (P : event -> Prop) : relation world :=
  fun w w' => exists l, trace w' = (trace w ++ l)%list /\ Forall P l.

(** [keeps p]: the file at path [p] is as it was. *)
Definition keeps (p : string) : relation world :=
  fun w w' => fs w' !! p = fs w !! p.

(** [raises_only E m]: whatever [m] raises satisfies [E]. *)
Definition raises_only {A : Type} (E : exn -> Prop) (m : io A) : Prop :=
  forall w e, fst (m w) = Raise e -> E e.

Definition not_ValueError (e : exn) : Prop := forall msg, e <> ValueError msg.

(** [ensures Q m]: [Q] holds of the world in which [m] returns. *)
Definition ensures {A : Type} (Q : world -> Prop) (m : io A) : Prop :=
  forall w a w', m w = (Ok a, w') -> Q w'.

(** * Properties *)

(** ** Running a computation *)

Lemma bind_run {A B : Type} (m : io A) (k : A -> io B) (w : world) :
  (m ≫= k) w = match m w with
               | (Ok a, w') => k a w'
               | (Raise e, w') => (Raise e, w')
               end.
Proof. reflexivity. Qed.

Lemma bind_assoc_run {A B C : Type} (m : io A) (k : A -> io B) (h : B -> io C) (w : world) :
  ((m ≫= k) ≫= h) w = (m ≫= (fun a => k a ≫= h)) w.
Proof. rewrite !bind_run. destruct (m w) as [[a|e] w']; reflexivity. Qed.

Lemma bind_ok_inv {A B : Type} (m : io A) (k : A -> io B) (w w' : world) (b : B) :
  (m ≫= k) w = (Ok b, w') ->
  exists a w1, m w = (Ok a, w1) /\ k a w1 = (Ok b, w').
Proof.
  rewrite bind_run. destruct (m w) as [[a|e] w1]; intros H.
  - exists a, w1. split; [reflexivity | exact H].
  - discriminate H.
Qed.

Lemma bind_raise {A B : Type} (m : io A) (k : A -> io B) (w w' : world) (e : exn) :
  m w = (Raise e, w') -> (m ≫= k) w = (Raise e, w').
Proof. intros H. rewrite bind_run, H. reflexivity. Qed.

Lemma bind_ok {A B : Type} (m : io A) (k : A -> io B) (w w' : world) (a : A) :
  m w = (Ok a, w') -> (m ≫= k) w = k a w'.
Proof. intros H. rewrite bind_run, H. reflexivity. Qed.

(** ** Invariants of a run *)

Section Steps.
Context (R : relation world) `{!PreOrder R}.

Lemma steps_ret {A : Type} (a : A) : steps R (mret a).
Proof. intros w. simpl. reflexivity. Qed.

Lemma steps_pass : steps R pass.
Proof. intros w. simpl. reflexivity. Qed.

Lemma steps_raise {A : Type} (e : exn) : steps R (@raise A e).
Proof. intros w. simpl. reflexivity. Qed.

Lemma steps_get_world : steps R get_world.
Proof. intros w. simpl. reflexivity. Qed.

Lemma steps_emit (e : event) :
  (forall w, R w (add_event e w)) -> steps R (emit e).
Proof. intros H w. apply H. Qed.

Lemma steps_modify_fs (f : gmap string file -> gmap string file) :
  (forall w, R w (set_fs f w)) -> steps R (modify_fs f).
Proof. intros H w. apply H. Qed.

Lemma steps_bind {A B : Type} (m : io A) (k : A -> io B) :
  steps R m -> (forall a, steps R (k a)) -> steps R (m ≫= k).
Proof.
  intros Hm Hk w. rewrite bind_run. specialize (Hm w).
  destruct (m w) as [[a|e] w1]; simpl in *.
  - etransitivity; [exact Hm | apply Hk].
  - exact Hm.
Qed.

Lemma steps_try_pass (m : io unit) : steps R m -> steps R (try_pass m).
Proof.
  intros Hm w. unfold try_pass. specialize (Hm w).
  destruct (m w) as [[a|e] w1]; exact Hm.
Qed.

Lemma steps_for_each {A : Type} (xs : list A) (body : A -> io unit) :
  (forall x, steps R (body x)) -> steps R (for_each xs body).
Proof.
  intros Hbody. induction xs as [|x xs IH]; simpl.
  - apply steps_pass.
  - apply steps_bind; [apply Hbody | intros _; exact IH].
Qed.
End Steps.

(** Breaking a computation of the program into its calls. *)
Ltac steps_go :=
  repeat first
    [ match goal with |- PreOrder _ => typeclasses eauto end
    | apply steps_ret | apply steps_pass | apply steps_raise
    | apply steps_get_world
    | apply steps_try_pass
    | apply steps_bind; [ | | intros ? ]
    | case_match ].

Ltac unfold_collaborators :=
  unfold print, AudioSegment_from_file, AudioSegment_from_wav, export,
    librosa_load, librosa_beat_track, subscript0, decode, subprocess_run_check,
    os_rename, remove_if_exists, os_path_exists, os_remove, os_listdir,
    ID3, ID3_delete, ID3_save, truediv.

Ltac unfold_program :=
  unfold changeBPM_body, copyMetadata, detectBPM, convertToWav,
    stretchAudioWithRubberband;
  unfold_collaborators.

(** *** The trace only grows *)

#[local] Instance emits_preorder (P : event -> Prop) : PreOrder (emits P).
Proof.
  split.
  - intros w. exists []. split; [symmetry; apply app_nil_r | constructor].
  - intros w1 w2 w3 [l1 [H1 F1]] [l2 [H2 F2]]. exists (l1 ++ l2)%list. split.
    + rewrite H2, H1. symmetry. apply app_assoc.
    + apply Forall_app. split; assumption.
Qed.

Lemma emits_add_event (P : event -> Prop) (e : event) (w : world) :
  P e -> emits P w (add_event e w).
Proof. intros H. exists [e]. split; [reflexivity | repeat constructor; exact H]. Qed.

Lemma emits_set_fs (P : event -> Prop) f (w : world) : emits P w (set_fs f w).
Proof. exists []. split; [symmetry; apply app_nil_r | constructor]. Qed.

Ltac emits_go :=
  steps_go;
  first [ apply steps_modify_fs; intros ?; apply emits_set_fs
        | apply steps_emit; intros ?; apply emits_add_event ].

Lemma changeBPM_body_emits (i o : string) (t f : pyval) :
  steps (emits (fun _ => True)) (changeBPM_body i o t f).
Proof. unfold_program. emits_go; exact I. Qed.

(** ** Argument validation *)

(** Once the arguments are accepted, the first call leaving the program is the
    decoding of the input. *)
Lemma changeBPM_body_starts (i o : string) (t f : pyval) (w : world) :
  exists rest,
    trace (snd (changeBPM_body i o t f w)) = (trace w ++ EvFromFile i :: rest)%list.
Proof.
  unfold changeBPM_body, convertToWav, AudioSegment_from_file.
  rewrite !bind_assoc_run, bind_run. cbn [emit].
  match goal with
  | |- context [snd (?k (add_event ?e w))] =>
      assert (Hk : steps (emits (fun _ => True)) k)
  end.
  { unfold_program. emits_go; exact I. }
  destruct (Hk (add_event (EvFromFile i) w)) as [l [Hl _]].
  exists l. rewrite Hl. cbn [add_event trace]. rewrite <- app_assoc. reflexivity.
Qed.

Lemma changeBPM_accepts (i o : string) (t f : pyval) :
  truthy t <> truthy f -> changeBPM i o t f = changeBPM_body i o t f.
Proof.
  intros H. unfold changeBPM.
  destruct (truthy t), (truthy f); try reflexivity; contradiction H; reflexivity.
Qed.

Lemma changeBPM_rejects (i o : string) (t f : pyval) :
  truthy t = truthy f ->
  changeBPM i o t f =
  raise (ValueError (if truthy t then msg_both else msg_neither)).
Proof.
  intros H. unfold changeBPM. rewrite <- H.
  destruct (truthy t); reflexivity.
Qed.

(** C1, as the program has it: an argument counts as supplied when it is
    truthy (neither [None] nor zero).  With both or neither supplied the call
    raises [ValueError] and the world, trace included, is as before; with
    exactly one supplied the call runs the pipeline, whose first step is the
    decoding of the input. *)
Theorem changeBPM_validation (i o : string) (t f : pyval) (w : world) :
  (truthy t = truthy f ->
     exists msg, changeBPM i o t f w = (Raise (ValueError msg), w)) /\
  (truthy t <> truthy f ->
     changeBPM i o t f w = changeBPM_body i o t f w /\
     exists rest,
       trace (snd (changeBPM i o t f w)) = (trace w ++ EvFromFile i :: rest)%list).
Proof.
  split; intros H.
  - rewrite (changeBPM_rejects _ _ _ _ H). eexists. reflexivity.
  - rewrite (changeBPM_accepts _ _ _ _ H). split; [reflexivity|].
    apply changeBPM_body_starts.
Qed.

Lemma changeBPM_validation_witness :
  (exists msg,
     changeBPM "music/song.mp3" "out.mp3" (Some 100%Q) (Some 2%Q) studio
     = (Raise (ValueError msg), studio)) /\
  (changeBPM "music/song.mp3" "out.mp3" (Some 100%Q) None studio
   = changeBPM_body "music/song.mp3" "out.mp3" (Some 100%Q) None studio /\
   exists rest,
     trace (snd (changeBPM "music/song.mp3" "out.mp3" (Some 100%Q) None studio))
     = (trace studio ++ EvFromFile "music/song.mp3" :: rest)%list).
Proof.
  split.
  - apply (proj1 (changeBPM_validation "music/song.mp3" "out.mp3"
                    (Some 100%Q) (Some 2%Q) studio)).
    reflexivity.
  - apply (proj2 (changeBPM_validation "music/song.mp3" "out.mp3"
                    (Some 100%Q) None studio)).
    discriminate.
Defined.

(** C1 as stated reads "supplied" as "passed".  A zero factor passed alone
    (exactly one argument passed) is rejected, and a zero factor passed next
    to a target BPM (both passed) is accepted. *)
Lemma changeBPM_supplied_counterexample :
  ((None : pyval) = None /\ is_Some (Some 0%Q) /\
   fst (changeBPM "music/song.mp3" "out.mp3" None (Some 0%Q) studio)
     = Raise (ValueError msg_neither)) /\
  (is_Some (Some 100%Q) /\ is_Some (Some 0%Q) /\
   fst (changeBPM "music/song.mp3" "out.mp3" (Some 100%Q) (Some 0%Q) studio)
     = Ok tt).
Proof.
  split; (split; [|split]); eauto; vm_compute; reflexivity.
Qed.

(** ** The exceptions a computation can raise *)

Section RaisesOnly.
Context (E : exn -> Prop).

Lemma raises_only_ret {A : Type} (a : A) : raises_only E (mret a).
Proof. intros w e H. discriminate H. Qed.

Lemma raises_only_pass : raises_only E pass.
Proof. intros w e H. discriminate H. Qed.

Lemma raises_only_raise {A : Type} (e : exn) : E e -> raises_only E (@raise A e).
Proof. intros He w e' H. injection H as <-. exact He. Qed.

Lemma raises_only_get_world : raises_only E get_world.
Proof. intros w e H. discriminate H. Qed.

Lemma raises_only_emit (ev : event) : raises_only E (emit ev).
Proof. intros w e H. discriminate H. Qed.

Lemma raises_only_modify_fs f : raises_only E (modify_fs f).
Proof. intros w e H. discriminate H. Qed.

Lemma raises_only_bind {A B : Type} (m : io A) (k : A -> io B) :
  raises_only E m -> (forall a, raises_only E (k a)) -> raises_only E (m ≫= k).
Proof.
  intros Hm Hk w e. rewrite bind_run. specialize (Hm w).
  destruct (m w) as [[a|e'] w1]; simpl in *.
  - apply Hk.
  - intros H. injection H as <-. apply Hm. reflexivity.
Qed.

Lemma raises_only_try_pass (m : io unit) : raises_only E (try_pass m).
Proof.
  intros w e. unfold try_pass. destruct (m w) as [[a|e'] w1]; discriminate.
Qed.

Lemma raises_only_for_each {A : Type} (xs : list A) (body : A -> io unit) :
  (forall x, raises_only E (body x)) -> raises_only E (for_each xs body).
Proof.
  intros Hbody. induction xs as [|x xs IH]; simpl.
  - apply raises_only_pass.
  - apply raises_only_bind; [apply Hbody | intros _; exact IH].
Qed.
End RaisesOnly.

Ltac raises_go :=
  repeat first
    [ apply raises_only_ret | apply raises_only_pass
    | apply raises_only_get_world | apply raises_only_emit
    | apply raises_only_modify_fs | apply raises_only_try_pass
    | apply raises_only_bind; [ | intros ? ]
    | apply raises_only_raise
    | case_match ].

Lemma changeBPM_body_raises (i o : string) (t f : pyval) :
  raises_only not_ValueError (changeBPM_body i o t f).
Proof. unfold_program. raises_go; intros msg; discriminate. Qed.

Lemma copyMetadata_raises (a b : string) :
  raises_only not_ValueError (copyMetadata a b).
Proof. unfold_program. raises_go; intros msg; discriminate. Qed.

(** C9: a zero factor is as good as none.  Alone it gives the "neither"
    error; next to a positive target BPM the call is the call with the target
    BPM only: it passes both checks, runs the pipeline, and does not raise the
    "both" error. *)
Theorem changeBPM_zero_is_absent (i o : string) (z bpm : Q) (w : world) :
  (z == 0)%Q -> (0 < bpm)%Q ->
  changeBPM i o None (Some z) w = (Raise (ValueError msg_neither), w) /\
  changeBPM i o (Some bpm) (Some z) w = changeBPM i o (Some bpm) None w /\
  changeBPM i o (Some bpm) (Some z) w = changeBPM_body i o (Some bpm) None w /\
  fst (changeBPM i o (Some bpm) (Some z) w) <> Raise (ValueError msg_both).
Proof.
  intros Hz Hbpm.
  assert (Tz : truthy (Some z) = false).
  { simpl. apply Qeq_bool_iff in Hz. rewrite Hz. reflexivity. }
  assert (Tb : truthy (Some bpm) = true).
  { simpl. destruct (Qeq_bool bpm 0) eqn:E; [|reflexivity].
    apply Qeq_bool_iff in E. rewrite E in Hbpm. exfalso. revert Hbpm. apply Qlt_irrefl. }
  assert (Hbody : changeBPM_body i o (Some bpm) (Some z) w
                  = changeBPM_body i o (Some bpm) None w).
  { unfold changeBPM_body. rewrite Tb. reflexivity. }
  unfold changeBPM. rewrite Tz, Tb. simpl. repeat split; auto.
  rewrite Hbody. intros H.
  exact (changeBPM_body_raises i o (Some bpm) None w _ H msg_both eq_refl).
Qed.

Lemma changeBPM_zero_is_absent_witness :
  changeBPM "music/song.mp3" "out.mp3" None (Some 0%Q) studio
    = (Raise (ValueError msg_neither), studio) /\
  changeBPM "music/song.mp3" "out.mp3" (Some 100%Q) (Some 0%Q) studio
    = changeBPM "music/song.mp3" "out.mp3" (Some 100%Q) None studio /\
  changeBPM "music/song.mp3" "out.mp3" (Some 100%Q) (Some 0%Q) studio
    = changeBPM_body "music/song.mp3" "out.mp3" (Some 100%Q) None studio /\
  fst (changeBPM "music/song.mp3" "out.mp3" (Some 100%Q) (Some 0%Q) studio)
    <> Raise (ValueError msg_both).
Proof.
  apply (changeBPM_zero_is_absent "music/song.mp3" "out.mp3" 0%Q 100%Q studio);
    reflexivity.
Defined.

(** ** [main] chooses one argument *)

Lemma truthy_inject_Z (n : Z) : truthy (Some (inject_Z n)) = truthy_int n.
Proof. destruct n; reflexivity. Qed.

Lemma main_raises (bpm : Z) (factor : pyval) (inputSong : string) :
  raises_only not_ValueError (main bpm factor inputSong).
Proof.
  unfold main.
  apply raises_only_bind; [apply raises_only_emit | intros _].
  apply raises_only_bind; [| intros _; apply copyMetadata_raises].
  destruct (truthy factor) eqn:Hf.
  - rewrite changeBPM_accepts by (simpl; rewrite Hf; discriminate).
    apply changeBPM_body_raises.
  - destruct (truthy_int bpm) eqn:Hb; [| apply raises_only_pass].
    rewrite changeBPM_accepts by (rewrite truthy_inject_Z, Hb; discriminate).
    apply changeBPM_body_raises.
Qed.

(** C10: with a truthy [bpm] and a truthy [factor], [main] calls [changeBPM]
    with the factor and no target BPM, and that call passes validation; and
    whatever its arguments, no call through [main] ends in a [ValueError]
    (the "both provided" error in particular). *)
Theorem main_factor_precedence (bpm : Z) (factor : pyval) (inputSong : string) (w : world) :
  (truthy_int bpm = true -> truthy factor = true ->
     main bpm factor inputSong w =
       (print (MsgLoading inputSong) ;;
        changeBPM inputSong (outputSong bpm inputSong) None factor ;;
        copyMetadata inputSong (outputSong bpm inputSong)) w /\
     changeBPM inputSong (outputSong bpm inputSong) None factor
       = changeBPM_body inputSong (outputSong bpm inputSong) None factor) /\
  (forall msg, fst (main bpm factor inputSong w) <> Raise (ValueError msg)).
Proof.
  split.
  - intros Hb Hf. split.
    + unfold main. rewrite Hf. reflexivity.
    + apply changeBPM_accepts. simpl. rewrite Hf. discriminate.
  - intros msg H. exact (main_raises bpm factor inputSong w _ H msg eq_refl).
Qed.

Lemma main_factor_precedence_witness :
  (main 128 (Some 2%Q) "music/song.mp3" studio =
     (print (MsgLoading "music/song.mp3") ;;
      changeBPM "music/song.mp3" (outputSong 128 "music/song.mp3") None (Some 2%Q) ;;
      copyMetadata "music/song.mp3" (outputSong 128 "music/song.mp3")) studio /\
   changeBPM "music/song.mp3" (outputSong 128 "music/song.mp3") None (Some 2%Q)
     = changeBPM_body "music/song.mp3" (outputSong 128 "music/song.mp3") None (Some 2%Q)) /\
  (forall msg,
     fst (main 128 (Some 2%Q) "music/song.mp3" studio) <> Raise (ValueError msg)).
Proof.
  split.
  - apply (proj1 (main_factor_precedence 128 (Some 2%Q) "music/song.mp3" studio));
      reflexivity.
  - apply (proj2 (main_factor_precedence 128 (Some 2%Q) "music/song.mp3" studio)).
Defined.

(** ** The output name *)

#[local] Arguments String.append : simpl nomatch.

Lemma append_empty_r (s : string) : s ++ "" = s.
Proof. induction s as [|c s IH]; simpl; [reflexivity | rewrite IH; reflexivity]. Qed.

Lemma append_assoc (a b c : string) : (a ++ b) ++ c = a ++ (b ++ c).
Proof. induction a as [|x a IH]; simpl; [reflexivity | rewrite IH; reflexivity]. Qed.

Lemma contains_cons (old : string) (c : ascii) (s : string) :
  contains old (String c s) = String.prefix old (String c s) || contains old s.
Proof. reflexivity. Qed.

(** A name without [.mp3] in it is left as it is. *)
Lemma str_replace_absent (new s : string) :
  contains ".mp3" s = false -> str_replace s ".mp3" new = s.
Proof.
  unfold str_replace. induction s as [|c s IH]; intros H; [reflexivity|].
  rewrite contains_cons in H. apply orb_false_iff in H as [Hp Hs].
  cbn [replace_from]. rewrite Hp, (IH Hs). reflexivity.
Qed.

Lemma prefix_empty (s : string) : String.prefix "" s = true.
Proof. destruct s; reflexivity. Qed.

(** An occurrence of [.mp3] at the start of [s ++ ".mp3"] lies in [s], unless
    [s] is empty. *)
Lemma prefix_mp3_append (s : string) :
  s <> "" -> String.prefix ".mp3" (s ++ ".mp3") = String.prefix ".mp3" s.
Proof.
  intros Hs. destruct s as [|c1 [|c2 [|c3 [|c4 s]]]]; [contradiction Hs; reflexivity | ..];
    cbn [String.append String.prefix];
    repeat (destruct (ascii_dec _ _)); rewrite ?prefix_empty;
    try reflexivity; try congruence.
Qed.

Lemma str_replace_extension (new name : string) :
  contains ".mp3" name = false ->
  str_replace (name ++ ".mp3") ".mp3" new = name ++ new.
Proof.
  unfold str_replace. induction name as [|c s IH]; intros H.
  - simpl. apply append_empty_r.
  - rewrite contains_cons in H. apply orb_false_iff in H as [Hp Hs].
    change (String c s ++ ".mp3") with (String c (s ++ ".mp3")).
    cbn [replace_from].
    change (String c (s ++ ".mp3")) with (String c s ++ ".mp3").
    rewrite prefix_mp3_append by discriminate. rewrite Hp, (IH Hs). reflexivity.
Qed.





(** ** Running the program step by step *)

Lemma fs_set_fs f w : fs (set_fs f w) = f (fs w).
Proof. reflexivity. Qed.
Lemma fs_add_event e w : fs (add_event e w) = fs w.
Proof. reflexivity. Qed.
Lemma trace_set_fs f w : trace (set_fs f w) = trace w.
Proof. reflexivity. Qed.
Lemma trace_add_event e w : trace (add_event e w) = (trace w ++ [e])%list.
Proof. reflexivity. Qed.
Lemma rubberband_set_fs f w : rubberband (set_fs f w) = rubberband w.
Proof. reflexivity. Qed.
Lemma rubberband_add_event e w : rubberband (add_event e w) = rubberband w.
Proof. reflexivity. Qed.
Lemma beat_track_set_fs f w : beat_track (set_fs f w) = beat_track w.
Proof. reflexivity. Qed.
Lemma beat_track_add_event e w : beat_track (add_event e w) = beat_track w.
Proof. reflexivity. Qed.
Lemma encoder_tags_set_fs f w : encoder_tags (set_fs f w) = encoder_tags w.
Proof. reflexivity. Qed.
Lemma encoder_tags_add_event e w : encoder_tags (add_event e w) = encoder_tags w.
Proof. reflexivity. Qed.
Lemma listing_set_fs f w : listing (set_fs f w) = listing w.
Proof. reflexivity. Qed.
Lemma listing_add_event e w : listing (add_event e w) = listing w.
Proof. reflexivity. Qed.

Create Rewrite HintDb world.
#[local] Hint Rewrite fs_set_fs fs_add_event trace_set_fs trace_add_event
  rubberband_set_fs rubberband_add_event beat_track_set_fs beat_track_add_event
  encoder_tags_set_fs encoder_tags_add_event listing_set_fs listing_add_event : world.

(** One round of evaluation: the monad is unfolded, the fields of the world
    are read through the updates. *)
Ltac run :=
  cbv [mbind io_bind mret io_ret emit get_world modify_fs raise try_pass pass
       option_bind fst snd];
  autorewrite with world.

(** Evaluation, using what the context says about the files. *)
Ltac exec :=
  repeat (progress
    (run;
     repeat match goal with
       | H : ?x = _ |- context [match ?x with _ => _ end] => rewrite H
       end;
     rewrite ?lookup_insert_eq)).

(** ** The metadata copier *)

(** C7: when the tags of the original cannot be read, [copyMetadata] raises
    what [ID3] raised, having done nothing else.  When they can be read,
    [copyMetadata] returns, and the new file carries exactly the tag set of
    the original, whatever tags it had; its audio and the other files are
    as before.  When the new file had no tags, reading them raises, the
    exception is swallowed and the deletion is not attempted. *)
Theorem copyMetadata_spec (originalFile newFile : string) (w : world) :
  ((fs w !! originalFile ≫= tags) = None ->
     exists e,
       ID3 originalFile w = (Raise e, add_event (EvID3 originalFile) w) /\
       copyMetadata originalFile newFile w
         = (Raise e, add_event (EvID3 originalFile) w)) /\
  (forall t, (fs w !! originalFile ≫= tags) = Some t ->
     exists w',
       copyMetadata originalFile newFile w = (Ok tt, w') /\
       (fs w' !! newFile ≫= tags) = Some t /\
       (fs w' !! newFile ≫= audio) = (fs w !! newFile ≫= audio) /\
       (forall p, p <> newFile -> fs w' !! p = fs w !! p)) /\
  (forall t g, (fs w !! originalFile ≫= tags) = Some t ->
     fs w !! newFile = Some g -> tags g = None ->
     fst (ID3 newFile (add_event (EvID3 originalFile) w))
       = Raise (ID3NoHeaderError newFile) /\
     copyMetadata originalFile newFile w =
       (Ok tt,
        add_event (EvPrint (MsgMetadataCopied originalFile newFile))
          (set_fs (insert newFile (File (audio g) (container g) (Some t)))
             (add_event (EvID3Save newFile)
                (add_event (EvID3 newFile)
                   (add_event (EvID3 originalFile) w)))))).
Proof.
  split; [|split].
  - intros H. unfold copyMetadata, ID3.
    destruct (fs w !! originalFile) as [f|] eqn:Hf; simpl in H.
    + exec. eexists; split; reflexivity.
    + exec. eexists; split; reflexivity.
  - intros t H. unfold copyMetadata. unfold_collaborators.
    destruct (fs w !! originalFile) as [f|] eqn:Hf; simpl in H; [|discriminate].
    exec.
    destruct (fs w !! newFile) as [g|] eqn:Hg; exec.
    + destruct (tags g) as [tg|] eqn:Htg; exec;
        (eexists; split; [reflexivity|]); exec;
        (split; [reflexivity|]); (split; [reflexivity|]);
        intros p Hp; rewrite ?lookup_insert_ne by congruence; reflexivity.
    + eexists; split; [reflexivity|]. exec.
      split; [reflexivity|]. split; [reflexivity|].
      intros p Hp. rewrite lookup_insert_ne by congruence. reflexivity.
  - intros t g H Hg Htg. unfold copyMetadata. unfold_collaborators.
    destruct (fs w !! originalFile) as [f|] eqn:Hf; simpl in H; [|discriminate].
    exec. split; reflexivity.
Qed.

Lemma copyMetadata_spec_witness :
  (exists e,
     ID3 "attic/cover.jpg" attic
       = (Raise e, add_event (EvID3 "attic/cover.jpg") attic) /\
     copyMetadata "attic/cover.jpg" "attic/song.mp3" attic
       = (Raise e, add_event (EvID3 "attic/cover.jpg") attic)) /\
  (exists w',
     copyMetadata "music/song.mp3" "music/take.wav" studio = (Ok tt, w') /\
     (fs w' !! "music/take.wav" ≫= tags) = Some song_tags /\
     (fs w' !! "music/take.wav" ≫= audio) = (fs studio !! "music/take.wav" ≫= audio) /\
     (forall p, p <> "music/take.wav" -> fs w' !! p = fs studio !! p)) /\
  (fst (ID3 "attic/cover.jpg" (add_event (EvID3 "attic/song.mp3") attic))
     = Raise (ID3NoHeaderError "attic/cover.jpg") /\
   copyMetadata "attic/song.mp3" "attic/cover.jpg" attic =
     (Ok tt,
      add_event (EvPrint (MsgMetadataCopied "attic/song.mp3" "attic/cover.jpg"))
        (set_fs (insert "attic/cover.jpg"
                   (File (audio cover_jpg) (container cover_jpg) (Some song_tags)))
           (add_event (EvID3Save "attic/cover.jpg")
              (add_event (EvID3 "attic/cover.jpg")
                 (add_event (EvID3 "attic/song.mp3") attic)))))).
Proof.
  split; [|split].
  - apply (proj1 (copyMetadata_spec "attic/cover.jpg" "attic/song.mp3" attic)).
    reflexivity.
  - apply (proj1 (proj2 (copyMetadata_spec "music/song.mp3" "music/take.wav" studio))).
    reflexivity.
  - apply (proj2 (proj2 (copyMetadata_spec "attic/song.mp3" "attic/cover.jpg" attic))
             song_tags cover_jpg); reflexivity.
Defined.

(** ** The batch driver *)

Lemma for_each_app {A : Type} (xs ys : list A) (body : A -> io unit) (w : world) :
  for_each (xs ++ ys)%list body w = (for_each xs body ;; for_each ys body) w.
Proof.
  revert w. induction xs as [|x xs IH]; intros w.
  - reflexivity.
  - change (for_each ((x :: xs) ++ ys)%list body)
      with (body x ;; for_each (xs ++ ys)%list body).
    change (for_each (x :: xs) body) with (body x ;; for_each xs body).
    rewrite bind_assoc_run, !(bind_run (body x)).
    destruct (body x w) as [[[]|e] w1]; [apply IH | reflexivity].
Qed.

Lemma run_listing (folder : string) (bpm : Z) (files : list string) (w : world) :
  listing w !! folder = Some files ->
  run folder bpm w =
  for_each files (fun file => main bpm None (os_path_join folder file))
    (add_event (EvListdir folder) w).
Proof. intros H. unfold run, os_listdir. exec. reflexivity. Qed.

(** C8: the entries are processed one after the other, each in the world
    the one before it left; and when an entry raises, the batch raises the
    same exception in the world of that moment: the entries after it are
    not processed. *)
Theorem run_sequential (folder : string) (bpm : Z)
    (before after : list string) (file : string) (w : world) :
  listing w !! folder = Some (before ++ file :: after)%list ->
  let body := fun file => main bpm None (os_path_join folder file) in
  run folder bpm w =
    (for_each before body ;; body file ;; for_each after body)
      (add_event (EvListdir folder) w) /\
  (forall w1 w2 e,
     for_each before body (add_event (EvListdir folder) w) = (Ok tt, w1) ->
     body file w1 = (Raise e, w2) ->
     run folder bpm w = (Raise e, w2)).
Proof.
  intros Hl body.
  assert (Hrun : run folder bpm w =
    (for_each before body ;; body file ;; for_each after body)
      (add_event (EvListdir folder) w)).
  { rewrite (run_listing _ _ _ _ Hl). fold body. rewrite for_each_app. reflexivity. }
  split; [exact Hrun|].
  intros w1 w2 e Hbefore Hfile. rewrite Hrun.
  rewrite (bind_ok _ _ _ _ _ Hbefore). apply bind_raise. exact Hfile.
Qed.

Lemma run_sequential_witness :
  run "attic" 128 attic =
    (for_each [] (fun file => main 128 None (os_path_join "attic" file)) ;;
     main 128 None (os_path_join "attic" "cover.jpg") ;;
     for_each ["song.mp3"] (fun file => main 128 None (os_path_join "attic" file)))
      (add_event (EvListdir "attic") attic) /\
  run "attic" 128 attic =
    (Raise (CouldntDecodeError "attic/cover.jpg"),
     add_event (EvFromFile "attic/cover.jpg")
       (add_event (EvPrint (MsgLoading "attic/cover.jpg"))
          (add_event (EvListdir "attic") attic))).
Proof.
  pose proof (run_sequential "attic" 128 [] ["song.mp3"] "cover.jpg" attic eq_refl)
    as [Hseq Hstop].
  split; [exact Hseq|].
  apply (Hstop (add_event (EvListdir "attic") attic)); reflexivity.
Defined.

(** ** The stages of [changeBPM] *)

Lemma changeBPM_body_stages (i o : string) (t f : pyval) :
  changeBPM_body i o t f =
  (convertToWav i tempInp ;;
   print (MsgConverted i) ;;
   factor ← (if truthy t
             then
               originalBPM ← detectBPM tempInp;
               print (MsgOriginalBPM originalBPM) ;;
               factor ← truediv originalBPM t;
               print (MsgChangeFactor factor) ;;
               mret (Some factor)
             else mret f);
   stretch_and_export o factor).
Proof. reflexivity. Qed.

Lemma export_wav_eqb : String.eqb "wav" "mp3" = false.
Proof. reflexivity. Qed.

Lemma wav_eqb : String.eqb "wav" "wav" = true.
Proof. reflexivity. Qed.

(** With a target BPM: conversion, detection on the temporary WAV, division,
    and then the stretching with the quotient. *)
Lemma changeBPM_body_detect (i o : string) (bpm originalBPM : Q) (f : pyval) (w : world)
    (fi : file) (s : sound) :
  fs w !! i = Some fi -> audio fi = Some s -> truthy (Some bpm) = true ->
  tempo_found w s originalBPM ->
  changeBPM_body i o (Some bpm) f w =
  stretch_and_export o (Some (originalBPM / bpm)%Q)
    (detected originalBPM (originalBPM / bpm)%Q (converted i s w)).
Proof.
  intros Hi Hs Ht [more Hbt]. rewrite changeBPM_body_stages. rewrite Ht.
  assert (Hz : Qeq_bool bpm 0 = false).
  { simpl in Ht. destruct (Qeq_bool bpm 0); [discriminate | reflexivity]. }
  unfold convertToWav, detectBPM. unfold_collaborators.
  exec. rewrite export_wav_eqb. exec. cbn [audio]. exec. reflexivity.
Qed.

(** With a target BPM and a beat tracker that returns no array element to
    subscript: the subscript raises, right after the beat tracking. *)
Lemma changeBPM_body_no_tempo (i o : string) (bpm : Q) (f : pyval) (w : world)
    (fi : file) (s : sound) :
  fs w !! i = Some fi -> audio fi = Some s -> truthy (Some bpm) = true ->
  (forall b, ~ tempo_found w s b) ->
  exists e,
    changeBPM_body i o (Some bpm) f w =
      (Raise e,
       add_event EvBeatTrack (add_event (EvLibrosaLoad tempInp) (converted i s w))) /\
    (e = TypeError \/ e = IndexError).
Proof.
  intros Hi Hs Ht Hno. rewrite changeBPM_body_stages. rewrite Ht.
  unfold convertToWav, detectBPM. unfold_collaborators.
  exec. rewrite export_wav_eqb. exec. cbn [audio]. exec.
  destruct (beat_track w s) as [[|b more]|x] eqn:Hbt.
  - eexists. split; [reflexivity | right; reflexivity].
  - exfalso. apply (Hno b). exists more. exact Hbt.
  - eexists. split; [reflexivity | left; reflexivity].
Qed.

Lemma tempo_found_dec (w : world) (s : sound) :
  (exists b, tempo_found w s b) \/ (forall b, ~ tempo_found w s b).
Proof.
  unfold tempo_found. destruct (beat_track w s) as [[|b more]|x].
  - right. intros b [more H]. discriminate H.
  - left. exists b, more. reflexivity.
  - right. intros b [more H]. discriminate H.
Qed.

(** With a factor: conversion, and then the stretching with that factor. *)
Lemma changeBPM_body_no_detect (i o : string) (t f : pyval) (w : world)
    (fi : file) (s : sound) :
  fs w !! i = Some fi -> audio fi = Some s -> truthy t = false ->
  changeBPM_body i o t f w = stretch_and_export o f (converted i s w).
Proof.
  intros Hi Hs Ht. rewrite changeBPM_body_stages. rewrite Ht.
  unfold convertToWav. unfold_collaborators.
  exec. rewrite export_wav_eqb. reflexivity.
Qed.

(** ** Removing the temporary files *)

(** The guarded removal never raises: a file that is there is removed, a
    missing one is left alone. *)
Lemma remove_if_exists_run (p : string) (w : world) :
  remove_if_exists p w =
  (Ok tt,
   match fs w !! p with
   | Some _ => set_fs (delete p) (add_event (EvRemove p) (add_event (EvExists p) w))
   | None => add_event (EvExists p) w
   end).
Proof.
  unfold remove_if_exists, os_path_exists, os_remove.
  destruct (fs w !! p) as [x|] eqn:Hp; run; rewrite Hp.
  - rewrite bool_decide_eq_true_2 by eauto. run. rewrite Hp. reflexivity.
  - rewrite bool_decide_eq_false_2 by (apply is_Some_None). reflexivity.
Qed.

Lemma remove_if_exists_ok (p : string) (w : world) :
  remove_if_exists p w = (Ok tt, snd (remove_if_exists p w)).
Proof. rewrite remove_if_exists_run. reflexivity. Qed.

Lemma remove_if_exists_absent (p : string) (w : world) :
  fs (snd (remove_if_exists p w)) !! p = None.
Proof.
  rewrite remove_if_exists_run. cbn [snd].
  destruct (fs w !! p) eqn:Hp; autorewrite with world.
  - apply lookup_delete_eq.
  - exact Hp.
Qed.

Lemma remove_if_exists_other (p q : string) (w : world) :
  p <> q -> fs (snd (remove_if_exists p w)) !! q = fs w !! q.
Proof.
  intros Hpq. rewrite remove_if_exists_run. cbn [snd].
  destruct (fs w !! p) eqn:Hp; autorewrite with world.
  - apply lookup_delete_ne. exact Hpq.
  - reflexivity.
Qed.

(** *** What holds when a computation returns *)

Lemma ensures_bind {A B : Type} (Q : world -> Prop) (m : io A) (k : A -> io B) :
  (forall a, ensures Q (k a)) -> ensures Q (m ≫= k).
Proof.
  intros Hk w b w' H. apply bind_ok_inv in H as (a & w1 & _ & H).
  exact (Hk a w1 b w' H).
Qed.

Lemma tempInp_neq_tempOut : tempInp <> tempOut.
Proof. discriminate. Qed.

Lemma cleanup_ensures (o : string) :
  ensures (fun w => fs w !! tempInp = None /\ fs w !! tempOut = None)
    (remove_if_exists tempInp ;; remove_if_exists tempOut ;; print (MsgExported o)).
Proof.
  intros w a w'.
  rewrite bind_run, (remove_if_exists_ok tempInp w).
  set (w1 := snd (remove_if_exists tempInp w)).
  rewrite bind_run, (remove_if_exists_ok tempOut w1).
  set (w2 := snd (remove_if_exists tempOut w1)).
  unfold print, emit. intros H. injection H as H. subst w'.
  autorewrite with world. unfold w2. split.
  - rewrite remove_if_exists_other by (apply not_eq_sym, tempInp_neq_tempOut).
    unfold w1. apply remove_if_exists_absent.
  - apply remove_if_exists_absent.
Qed.

Lemma stretch_and_export_ensures (o : string) (k : pyval) :
  ensures (fun w => fs w !! tempInp = None /\ fs w !! tempOut = None)
    (stretch_and_export o k).
Proof.
  unfold stretch_and_export.
  do 3 (apply ensures_bind; intros ?).
  apply cleanup_ensures.
Qed.

Lemma changeBPM_body_ensures (i o : string) (t f : pyval) :
  ensures (fun w => fs w !! tempInp = None /\ fs w !! tempOut = None)
    (changeBPM_body i o t f).
Proof.
  rewrite changeBPM_body_stages.
  do 3 (apply ensures_bind; intros ?).
  apply stretch_and_export_ensures.
Qed.

(** ** The stretcher *)

Lemma stretch_and_export_absent (o : string) (k : pyval) (w : world) :
  rubberband w = None ->
  stretch_and_export o k w =
  (Raise (FileNotFoundError "rubberband"),
   add_event (EvSubprocessRun (rubberband_argv tempInp tempOut k)) w).
Proof.
  intros H. unfold stretch_and_export, stretchAudioWithRubberband, subprocess_run_check.
  exec. reflexivity.
Qed.

Lemma stretch_and_export_status (o : string) (k : pyval) (w : world)
    (bin : list arg -> sound -> Z * sound) (ft : file) (s out : sound) (status : Z) :
  rubberband w = Some bin -> fs w !! tempInp = Some ft -> audio ft = Some s ->
  bin (rubberband_argv tempInp tempOut k) s = (status, out) -> status <> 0%Z ->
  stretch_and_export o k w =
  (Raise (CalledProcessError status (rubberband_argv tempInp tempOut k)),
   add_event (EvSubprocessRun (rubberband_argv tempInp tempOut k)) w).
Proof.
  intros Hr Hf Ha Hb Hs.
  unfold stretch_and_export, stretchAudioWithRubberband, subprocess_run_check.
  exec. apply Z.eqb_neq in Hs. rewrite Hs. reflexivity.
Qed.

Lemma stretch_and_export_ok (o : string) (k : pyval) (w : world)
    (bin : list arg -> sound -> Z * sound) (ft : file) (s out : sound) :
  rubberband w = Some bin -> fs w !! tempInp = Some ft -> audio ft = Some s ->
  bin (rubberband_argv tempInp tempOut k) s = (0%Z, out) ->
  exists w', stretch_and_export o k w = (Ok tt, w').
Proof.
  intros Hr Hf Ha Hb.
  unfold stretch_and_export, stretchAudioWithRubberband, subprocess_run_check.
  unfold print, AudioSegment_from_wav, export, os_rename.
  exec. cbn [Z.eqb]. exec.
  destruct (endswith o ".mp3"); exec.
  - cbn [container audio]. rewrite wav_eqb. exec.
    rewrite remove_if_exists_ok. rewrite remove_if_exists_ok.
    eexists. reflexivity.
  - rewrite remove_if_exists_ok. rewrite remove_if_exists_ok.
    eexists. reflexivity.
Qed.

Lemma trace_converted (i : string) (s : sound) (w : world) :
  trace (converted i s w) =
  (trace w ++ [EvFromFile i; EvExport tempInp "wav"; EvPrint (MsgConverted i)])%list.
Proof.
  unfold converted. autorewrite with world. rewrite <- !app_assoc. reflexivity.
Qed.

Lemma trace_detected (b k : Q) (w : world) :
  trace (detected b k w) =
  (trace w ++ [EvLibrosaLoad tempInp; EvBeatTrack;
               EvPrint (MsgOriginalBPM b); EvPrint (MsgChangeFactor k)])%list.
Proof.
  unfold detected. autorewrite with world. rewrite <- !app_assoc. reflexivity.
Qed.

Lemma fs_converted (i : string) (s : sound) (w : world) :
  fs (converted i s w) !! tempInp = Some (File (Some s) "wav" None).
Proof. unfold converted. autorewrite with world. apply lookup_insert_eq. Qed.

Lemma fs_detected (b k : Q) (w : world) : fs (detected b k w) = fs w.
Proof. reflexivity. Qed.

Lemma rubberband_converted (i : string) (s : sound) (w : world) :
  rubberband (converted i s w) = rubberband w.
Proof. reflexivity. Qed.

Lemma rubberband_detected (b k : Q) (w : world) :
  rubberband (detected b k w) = rubberband w.
Proof. reflexivity. Qed.

(** The stretcher, called on its own. *)
Lemma stretchAudioWithRubberband_run (inputWav outputWav : string) (k : pyval) (w : world) :
  let argv := rubberband_argv inputWav outputWav k in
  trace (snd (stretchAudioWithRubberband inputWav outputWav k w))
    = (trace w ++ [EvSubprocessRun argv])%list /\
  (rubberband w = None ->
     fst (stretchAudioWithRubberband inputWav outputWav k w)
       = Raise (FileNotFoundError "rubberband")) /\
  (forall bin ft s status out,
     rubberband w = Some bin -> fs w !! inputWav = Some ft -> audio ft = Some s ->
     bin argv s = (status, out) -> status <> 0%Z ->
     fst (stretchAudioWithRubberband inputWav outputWav k w)
       = Raise (CalledProcessError status argv)).
Proof.
  intros argv. unfold stretchAudioWithRubberband, subprocess_run_check. fold argv.
  split; [|split].
  - run. destruct (rubberband w) as [bin|]; [|reflexivity].
    destruct (fs w !! inputWav) as [ft|]; [|reflexivity].
    destruct (audio ft) as [s|]; [|reflexivity].
    destruct (bin argv s) as [status out].
    destruct (status =? 0)%Z; reflexivity.
  - intros H. exec. reflexivity.
  - intros bin ft s status out Hr Hf Ha Hb Hs. exec.
    apply Z.eqb_neq in Hs. rewrite Hs. reflexivity.
Qed.

Lemma stretch_and_export_fails (o : string) (k : pyval) (w : world) (s : sound) :
  rubberband_fails w -> fs w !! tempInp = Some (File (Some s) "wav" None) ->
  exists e,
    stretch_and_export o k w =
      (Raise e, add_event (EvSubprocessRun (rubberband_argv tempInp tempOut k)) w) /\
    (e = FileNotFoundError "rubberband" \/
     exists status, status <> 0%Z /\
       e = CalledProcessError status (rubberband_argv tempInp tempOut k)).
Proof.
  intros [Hr | (bin & Hr & Hbin)] Hf.
  - eexists. split; [apply stretch_and_export_absent; exact Hr | left; reflexivity].
  - destruct (bin (rubberband_argv tempInp tempOut k) s) as [status out] eqn:Hb.
    assert (Hs : status <> 0%Z).
    { specialize (Hbin (rubberband_argv tempInp tempOut k) s). rewrite Hb in Hbin. exact Hbin. }
    eexists. split.
    + eapply stretch_and_export_status; eauto.
    + right. exists status. split; [exact Hs | reflexivity].
Qed.

(** C6: the stretcher makes one call of the binary, with the argument vector
    [rubberband -t <factor> --pitch 0 --crisp 5 <input> <output>]; it raises
    when the binary is missing and when it exits with a non-zero status.  In
    a run of [changeBPM] that reaches the stretcher (accepted arguments, a
    readable input and, when the tempo is to be detected, a beat tracker
    that returns a tempo) such a failure is the outcome of the whole call,
    the call of the binary is the last event of the run, and it was made
    once. *)
Theorem stretcher_invocation (inputWav outputWav : string) (applyFactor : pyval) (w : world) :
  let argv := [Lit "rubberband"; Lit "-t"; StrOf applyFactor; Lit "--pitch"; Lit "0";
               Lit "--crisp"; Lit "5"; Lit inputWav; Lit outputWav] in
  (trace (snd (stretchAudioWithRubberband inputWav outputWav applyFactor w))
     = (trace w ++ [EvSubprocessRun argv])%list /\
   (rubberband w = None ->
      fst (stretchAudioWithRubberband inputWav outputWav applyFactor w)
        = Raise (FileNotFoundError "rubberband")) /\
   (forall bin ft s status out,
      rubberband w = Some bin -> fs w !! inputWav = Some ft -> audio ft = Some s ->
      bin argv s = (status, out) -> status <> 0%Z ->
      fst (stretchAudioWithRubberband inputWav outputWav applyFactor w)
        = Raise (CalledProcessError status argv))) /\
  (forall i o t f fi s,
     truthy t <> truthy f -> fs w !! i = Some fi -> audio fi = Some s ->
     (truthy t = true -> exists originalBPM, tempo_found w s originalBPM) ->
     rubberband_fails w ->
     exists e k before,
       changeBPM i o t f w =
         (Raise e,
          snd (changeBPM i o t f w)) /\
       (e = FileNotFoundError "rubberband" \/
        exists status, status <> 0%Z /\
          e = CalledProcessError status (rubberband_argv tempInp tempOut k)) /\
       trace (snd (changeBPM i o t f w))
         = (trace w ++ before ++ [EvSubprocessRun (rubberband_argv tempInp tempOut k)])%list /\
       Forall (fun ev => ~ is_run ev) before).
Proof.
  intros argv. split; [exact (stretchAudioWithRubberband_run inputWav outputWav applyFactor w)|].
  intros i o t f fi s Hv Hi Hs Hfound Hfail.
  rewrite (changeBPM_accepts _ _ _ _ Hv).
  destruct (truthy t) eqn:Ht.
  - destruct t as [bpm|]; [|discriminate].
    destruct (Hfound eq_refl) as [b Hb].
    rewrite (changeBPM_body_detect i o bpm b f w fi s Hi Hs Ht Hb).
    destruct (stretch_and_export_fails o (Some (b / bpm)%Q)
                (detected b (b / bpm)%Q (converted i s w)) s)
      as (e & He & Hkind).
    { exact Hfail. }
    { rewrite fs_detected. apply fs_converted. }
    rewrite He. cbn [snd].
    exists e, (Some (b / bpm)%Q).
    exists [EvFromFile i; EvExport tempInp "wav"; EvPrint (MsgConverted i);
            EvLibrosaLoad tempInp; EvBeatTrack;
            EvPrint (MsgOriginalBPM b);
            EvPrint (MsgChangeFactor (b / bpm)%Q)].
    split; [reflexivity|]. split; [exact Hkind|].
    autorewrite with world. rewrite trace_detected, trace_converted.
    rewrite <- !app_assoc. split; [reflexivity|].
    repeat constructor; intros [].
  - rewrite (changeBPM_body_no_detect i o t f w fi s Hi Hs Ht).
    destruct (stretch_and_export_fails o f (converted i s w) s) as (e & He & Hkind).
    { exact Hfail. }
    { apply fs_converted. }
    rewrite He. cbn [snd].
    exists e, f.
    exists [EvFromFile i; EvExport tempInp "wav"; EvPrint (MsgConverted i)].
    split; [reflexivity|]. split; [exact Hkind|].
    autorewrite with world. rewrite trace_converted.
    rewrite <- !app_assoc. split; [reflexivity|].
    repeat constructor; intros [].
Qed.

Lemma stretcher_invocation_witness :
  fst (stretchAudioWithRubberband "a.wav" "b.wav" (Some 2%Q) studio_no_rubberband)
    = Raise (FileNotFoundError "rubberband") /\
  exists e k before,
    changeBPM "music/song.mp3" "out.mp3" (Some 100%Q) None studio_rubberband_failing
      = (Raise e,
         snd (changeBPM "music/song.mp3" "out.mp3" (Some 100%Q) None
                studio_rubberband_failing)) /\
    (e = FileNotFoundError "rubberband" \/
     exists status, status <> 0%Z /\
       e = CalledProcessError status (rubberband_argv tempInp tempOut k)) /\
    trace (snd (changeBPM "music/song.mp3" "out.mp3" (Some 100%Q) None
                  studio_rubberband_failing))
      = (trace studio_rubberband_failing ++ before ++
         [EvSubprocessRun (rubberband_argv tempInp tempOut k)])%list /\
    Forall (fun ev => ~ is_run ev) before.
Proof.
  split.
  - apply (proj1 (proj2 (proj1
      (stretcher_invocation "a.wav" "b.wav" (Some 2%Q) studio_no_rubberband)))).
    reflexivity.
  - apply (proj2 (stretcher_invocation "a.wav" "b.wav" None studio_rubberband_failing)
             "music/song.mp3" "out.mp3" (Some 100%Q) None song_mp3 "song").
    + discriminate.
    + reflexivity.
    + reflexivity.
    + intros _. exists 120%Q, []. reflexivity.
    + right. exists rubberband_failing. split; [reflexivity|].
      intros argv s. discriminate.
Defined.

(** ** The factor *)

(** From the call of the stretcher on, the program neither detects a tempo
    nor calls the binary again. *)
Lemma stretch_and_export_trace (o : string) (k : pyval) (w : world) :
  exists rest,
    trace (snd (stretch_and_export o k w)) =
      (trace w ++ EvSubprocessRun (rubberband_argv tempInp tempOut k) :: rest)%list /\
    Forall (fun e => ~ is_detection e /\ ~ is_run e) rest.
Proof.
  unfold stretch_and_export, stretchAudioWithRubberband, subprocess_run_check.
  rewrite !bind_assoc_run, bind_run. cbn [emit].
  match goal with
  | |- context [snd (?c (add_event ?e w))] =>
      assert (Hc : steps (emits (fun ev => ~ is_detection ev /\ ~ is_run ev)) c)
  end.
  { unfold_program. emits_go; split; intros []. }
  destruct (Hc (add_event (EvSubprocessRun (rubberband_argv tempInp tempOut k)) w))
    as [l [Hl Fl]].
  exists l. rewrite Hl. autorewrite with world. rewrite <- app_assoc.
  split; [reflexivity | exact Fl].
Qed.

Lemma Qdiv_pos (a b : Q) : (0 < a)%Q -> (0 < b)%Q -> (0 < a / b)%Q.
Proof.
  intros Ha Hb. apply Qlt_shift_div_l; [exact Hb|].
  rewrite Qmult_0_l. exact Ha.
Qed.

(** C3: with a target BPM and no factor, the tempo is detected on the
    temporary WAV the input was converted to and, the beat tracker having
    returned a tempo, the binary is called with the quotient of the detected
    tempo by the target, which is positive when both are; with a factor and
    no target BPM, the binary is called with that factor right after the
    conversion, and no detection takes place. *)
Theorem changeBPM_factor (i o : string) (t f : pyval) (w : world) (fi : file) (s : sound) :
  fs w !! i = Some fi -> audio fi = Some s ->
  (forall bpm originalBPM, t = Some bpm -> truthy t = true -> truthy f = false ->
     tempo_found w s originalBPM ->
     let factor := (originalBPM / bpm)%Q in
     detectBPM tempInp (converted i s w) =
       (Ok originalBPM,
        add_event EvBeatTrack (add_event (EvLibrosaLoad tempInp) (converted i s w))) /\
     (exists rest,
        trace (snd (changeBPM i o t f w)) =
          (trace w ++
           [EvFromFile i; EvExport tempInp "wav"; EvPrint (MsgConverted i);
            EvLibrosaLoad tempInp; EvBeatTrack;
            EvPrint (MsgOriginalBPM originalBPM); EvPrint (MsgChangeFactor factor);
            EvSubprocessRun (rubberband_argv tempInp tempOut (Some factor))] ++ rest)%list /\
        Forall (fun e => ~ is_detection e /\ ~ is_run e) rest) /\
     ((0 < originalBPM)%Q -> (0 < bpm)%Q -> (0 < factor)%Q)) /\
  (truthy t = false -> truthy f = true ->
     exists rest,
       trace (snd (changeBPM i o t f w)) =
         (trace w ++
          [EvFromFile i; EvExport tempInp "wav"; EvPrint (MsgConverted i);
           EvSubprocessRun (rubberband_argv tempInp tempOut f)] ++ rest)%list /\
       Forall (fun e => ~ is_detection e /\ ~ is_run e) rest).
Proof.
  intros Hi Hs. split.
  - intros bpm originalBPM -> Ht Hf Hfound factor. split; [|split].
    + destruct Hfound as [more Hbt].
      unfold detectBPM, librosa_load, librosa_beat_track, subscript0. run.
      rewrite fs_converted. cbn [audio]. run.
      change (beat_track (converted i s w)) with (beat_track w).
      rewrite Hbt. reflexivity.
    + rewrite changeBPM_accepts by (rewrite Ht, Hf; discriminate).
      rewrite (changeBPM_body_detect i o bpm originalBPM f w fi s Hi Hs Ht Hfound).
      fold factor.
      destruct (stretch_and_export_trace o (Some factor)
                  (detected originalBPM factor (converted i s w))) as (rest & Hr & Fr).
      exists rest. split; [|exact Fr].
      rewrite Hr, trace_detected, trace_converted. rewrite <- !app_assoc. reflexivity.
    + apply Qdiv_pos.
  - intros Ht Hf.
    rewrite changeBPM_accepts by (rewrite Ht, Hf; discriminate).
    rewrite (changeBPM_body_no_detect i o t f w fi s Hi Hs Ht).
    destruct (stretch_and_export_trace o f (converted i s w)) as (rest & Hr & Fr).
    exists rest. split; [|exact Fr].
    rewrite Hr, trace_converted. rewrite <- !app_assoc. reflexivity.
Qed.

Lemma changeBPM_factor_witness :
  (exists rest,
     trace (snd (changeBPM "music/song.mp3" "out.mp3" (Some 100%Q) None studio)) =
       (trace studio ++
        [EvFromFile "music/song.mp3"; EvExport tempInp "wav";
         EvPrint (MsgConverted "music/song.mp3");
         EvLibrosaLoad tempInp; EvBeatTrack;
         EvPrint (MsgOriginalBPM 120%Q);
         EvPrint (MsgChangeFactor (120 / 100)%Q);
         EvSubprocessRun
           (rubberband_argv tempInp tempOut (Some (120 / 100)%Q))]
        ++ rest)%list /\
     Forall (fun e => ~ is_detection e /\ ~ is_run e) rest) /\
  (0 < 120 / 100)%Q /\
  (exists rest,
     trace (snd (changeBPM "music/song.mp3" "out.mp3" None (Some 2%Q) studio)) =
       (trace studio ++
        [EvFromFile "music/song.mp3"; EvExport tempInp "wav";
         EvPrint (MsgConverted "music/song.mp3");
         EvSubprocessRun (rubberband_argv tempInp tempOut (Some 2%Q))] ++ rest)%list /\
     Forall (fun e => ~ is_detection e /\ ~ is_run e) rest).
Proof.
  pose proof (changeBPM_factor "music/song.mp3" "out.mp3" (Some 100%Q) None studio
                song_mp3 "song" eq_refl eq_refl) as [Hdetect _].
  pose proof (changeBPM_factor "music/song.mp3" "out.mp3" None (Some 2%Q) studio
                song_mp3 "song" eq_refl eq_refl) as [_ Hgiven].
  destruct (Hdetect 100%Q 120%Q eq_refl eq_refl eq_refl (ex_intro _ [] eq_refl))
    as (_ & Htrace & Hpos).
  split; [exact Htrace|]. split.
  - apply Hpos; reflexivity.
  - apply Hgiven; reflexivity.
Defined.

(** ** The temporary files *)

(** C2, as the program has it: when [changeBPM] returns, neither temporary
    WAV is on disk, and the removal skips a file that is not there without
    raising.  There is no removal on the way out of a failure: when a step
    after the conversion raises, the exception leaves [changeBPM] and the
    pre-stretch temporary WAV stays on disk. *)
Theorem changeBPM_cleanup (i o : string) (t f : pyval) (w : world) :
  (forall w', changeBPM i o t f w = (Ok tt, w') ->
     fs w' !! tempInp = None /\ fs w' !! tempOut = None) /\
  (forall p w0, fs w0 !! p = None ->
     remove_if_exists p w0 = (Ok tt, add_event (EvExists p) w0)) /\
  (forall fi s e w',
     truthy t <> truthy f -> fs w !! i = Some fi -> audio fi = Some s ->
     changeBPM i o t f w = (Raise e, w') ->
     fs w' !! tempInp = Some (File (Some s) "wav" None)).
Proof.
  split; [|split].
  - intros w' H. unfold changeBPM in H.
    destruct (negb (truthy t) && negb (truthy f)); [discriminate H|].
    destruct (truthy t && truthy f); [discriminate H|].
    exact (changeBPM_body_ensures i o t f w tt w' H).
  - intros p w0 Hp. rewrite remove_if_exists_run, Hp. reflexivity.
  - intros fi s e w' Hv Hi Hs H.
    rewrite (changeBPM_accepts _ _ _ _ Hv) in H.
    assert (Hstage :
      (exists k w1,
         changeBPM_body i o t f w = stretch_and_export o k w1 /\
         fs w1 !! tempInp = Some (File (Some s) "wav" None)) \/
      (exists e1 w1,
         changeBPM_body i o t f w = (Raise e1, w1) /\
         fs w1 !! tempInp = Some (File (Some s) "wav" None))).
    { destruct (truthy t) eqn:Ht.
      - destruct t as [bpm|]; [|discriminate].
        destruct (tempo_found_dec w s) as [[b Hb] | Hno].
        + left. eexists _, _.
          split; [exact (changeBPM_body_detect i o bpm b f w fi s Hi Hs Ht Hb)|].
          rewrite fs_detected. apply fs_converted.
        + right.
          destruct (changeBPM_body_no_tempo i o bpm f w fi s Hi Hs Ht Hno)
            as (e1 & He1 & _).
          eexists _, _. split; [exact He1|].
          autorewrite with world. apply fs_converted.
      - left. eexists _, _.
        split; [exact (changeBPM_body_no_detect i o t f w fi s Hi Hs Ht)|].
        apply fs_converted. }
    destruct Hstage as [(k & w1 & Hbody & Htemp) | (e1 & w1 & Hbody & Htemp)];
      rewrite Hbody in H; [|injection H as _ <-; exact Htemp].
    destruct (rubberband w1) as [bin|] eqn:Hr.
    + destruct (bin (rubberband_argv tempInp tempOut k) s) as [status out] eqn:Hb.
      destruct (Z.eq_dec status 0%Z) as [-> | Hne].
      * destruct (stretch_and_export_ok o k w1 bin _ s out Hr Htemp eq_refl Hb)
          as [w2 Hok].
        rewrite Hok in H. discriminate H.
      * rewrite (stretch_and_export_status o k w1 bin _ s out status
                   Hr Htemp eq_refl Hb Hne) in H.
        injection H as _ <-. autorewrite with world. exact Htemp.
    + rewrite (stretch_and_export_absent o k w1 Hr) in H.
      injection H as _ <-. autorewrite with world. exact Htemp.
Qed.

Lemma changeBPM_cleanup_witness :
  (fs (snd (changeBPM "music/song.mp3" "out.mp3" (Some 100%Q) None studio)) !! tempInp = None /\
   fs (snd (changeBPM "music/song.mp3" "out.mp3" (Some 100%Q) None studio)) !! tempOut = None) /\
  remove_if_exists tempOut studio = (Ok tt, add_event (EvExists tempOut) studio) /\
  fs (snd (changeBPM "music/song.mp3" "out.mp3" (Some 100%Q) None studio_no_rubberband))
    !! tempInp = Some (File (Some "song") "wav" None).
Proof.
  split; [|split].
  - apply (proj1 (changeBPM_cleanup "music/song.mp3" "out.mp3" (Some 100%Q) None studio)).
    vm_compute. reflexivity.
  - apply (proj1 (proj2
      (changeBPM_cleanup "music/song.mp3" "out.mp3" (Some 100%Q) None studio))).
    reflexivity.
  - apply (proj2 (proj2
      (changeBPM_cleanup "music/song.mp3" "out.mp3" (Some 100%Q) None
         studio_no_rubberband))
      song_mp3 "song" (FileNotFoundError "rubberband")).
    + discriminate.
    + reflexivity.
    + reflexivity.
    + vm_compute. reflexivity.
Defined.

(** C2 as stated fails when the stretcher fails: without [rubberband] the
    call raises and the pre-stretch temporary WAV is still on disk. *)
Lemma changeBPM_cleanup_counterexample :
  fst (changeBPM "music/song.mp3" "out.mp3" (Some 100%Q) None studio_no_rubberband)
    = Raise (FileNotFoundError "rubberband") /\
  fs (snd (changeBPM "music/song.mp3" "out.mp3" (Some 100%Q) None studio_no_rubberband))
    !! tempInp = Some (File (Some "song") "wav" None).
Proof. split; vm_compute; reflexivity. Qed.

(** ** The input file *)

#[local] Instance keeps_preorder (p : string) : PreOrder (keeps p).
Proof.
  split.
  - intros w. reflexivity.
  - intros w1 w2 w3 H1 H2. unfold keeps in *. rewrite H2. exact H1.
Qed.

Ltac keeps_go :=
  steps_go;
  first [ apply steps_emit; intros ?; reflexivity
        | apply steps_modify_fs; intros ?; unfold keeps; autorewrite with world;
          rewrite ?lookup_insert_ne, ?lookup_delete_ne by congruence;
          reflexivity ].

(** [changeBPM] writes to the two temporary files and to the output, and to
    nothing else. *)
Lemma changeBPM_keeps (p i o : string) (t f : pyval) :
  p <> tempInp -> p <> tempOut -> p <> o ->
  steps (keeps p) (changeBPM i o t f).
Proof.
  intros H1 H2 H3. unfold changeBPM.
  destruct (negb (truthy t) && negb (truthy f)); [apply steps_raise; typeclasses eauto|].
  destruct (truthy t && truthy f); [apply steps_raise; typeclasses eauto|].
  unfold_program. keeps_go.
Qed.

(** [copyMetadata] writes to the new file, and to nothing else. *)
Lemma copyMetadata_keeps (p a b : string) :
  p <> b -> steps (keeps p) (copyMetadata a b).
Proof. intros H. unfold_program. keeps_go. Qed.

Lemma main_keeps (p : string) (bpm : Z) (factor : pyval) (inputSong : string) :
  p <> tempInp -> p <> tempOut -> p <> outputSong bpm inputSong ->
  steps (keeps p) (main bpm factor inputSong).
Proof.
  intros H1 H2 H3. unfold main.
  apply steps_bind; [typeclasses eauto | apply steps_emit; intros ?; reflexivity | intros _].
  apply steps_bind; [typeclasses eauto | | intros _; apply copyMetadata_keeps; exact H3].
  destruct (truthy factor); [apply changeBPM_keeps; assumption|].
  destruct (truthy_int bpm); [apply changeBPM_keeps; assumption|].
  apply steps_pass. typeclasses eauto.
Qed.

(** A name in which [.mp3] occurs is changed by the replacement. *)
Lemma str_replace_present (s x : string) :
  contains ".mp3" s = true -> str_replace s ".mp3" (String "_" x) <> s.
Proof.
  unfold str_replace. induction s as [|c s IH]; intros H.
  - discriminate H.
  - rewrite contains_cons in H. cbn [replace_from].
    destruct (String.prefix ".mp3" (String c s)) eqn:Hp.
    + cbn [String.append]. intros E. injection E as <- _.
      discriminate Hp.
    + simpl in H. intros E. injection E as E. exact (IH H E).
Qed.

(** For an input with [.mp3] in its path, the run of [main] leaves the input
    file as it was. *)
Lemma main_keeps_mp3_input (bpm : Z) (factor : pyval) (inputSong : string) (w : world) :
  contains ".mp3" inputSong = true ->
  fs (snd (main bpm factor inputSong w)) !! inputSong = fs w !! inputSong.
Proof.
  intros H. apply main_keeps.
  - intros ->. discriminate H.
  - intros ->. discriminate H.
  - intros E. symmetry in E. revert E. unfold outputSong.
    apply str_replace_present. exact H.
Qed.

(** C4 at an input that is not an MP3: the output name is the input name,
    the stretched temporary WAV is renamed over the input file, and the run
    then fails on the tags the input no longer has. *)
Theorem main_overwrites_wav_input :
  outputSong 128 "music/take.wav" = "music/take.wav" /\
  fs studio !! "music/take.wav" = Some (File (Some "take") "wav" (Some song_tags)) /\
  fs (snd (main 128 None "music/take.wav" studio)) !! "music/take.wav"
    = Some (File (Some "take~") "wav" None) /\
  fst (main 128 None "music/take.wav" studio)
    = Raise (ID3NoHeaderError "music/take.wav") /\
  fst (run "music" 128 studio) = Raise (ID3NoHeaderError "music/take.wav") /\
  fs (snd (run "music" 128 studio)) !! "music/take.wav"
    = Some (File (Some "take~") "wav" None).
Proof. repeat split; vm_compute; reflexivity. Qed.

(** * Further properties of the pipeline *)

(** ** The output of a successful run *)

Lemma stretch_and_export_output (o : string) (k : pyval) (w : world)
    (bin : list arg -> sound -> Z * sound) (ft : file) (s out : sound) :
  o <> tempInp -> o <> tempOut ->
  rubberband w = Some bin -> fs w !! tempInp = Some ft -> audio ft = Some s ->
  bin (rubberband_argv tempInp tempOut k) s = (0%Z, out) ->
  exists w',
    stretch_and_export o k w = (Ok tt, w') /\
    fs w' !! o = Some (output_file o out w).
Proof.
  intros Ho1 Ho2 Hr Hf Ha Hb.
  unfold stretch_and_export, stretchAudioWithRubberband, subprocess_run_check.
  unfold print, AudioSegment_from_wav, export, os_rename, output_file.
  exec. cbn [Z.eqb]. exec.
  destruct (endswith o ".mp3"); exec.
  - cbn [container audio]. rewrite wav_eqb. exec.
    rewrite remove_if_exists_ok. rewrite remove_if_exists_ok.
    eexists. split; [reflexivity|]. autorewrite with world.
    rewrite !remove_if_exists_other by congruence.
    autorewrite with world. rewrite lookup_insert_eq. reflexivity.
  - rewrite remove_if_exists_ok. rewrite remove_if_exists_ok.
    eexists. split; [reflexivity|]. autorewrite with world.
    rewrite !remove_if_exists_other by congruence.
    autorewrite with world. rewrite lookup_insert_eq. reflexivity.
Qed.

(** The stage at which the stretcher is called, for accepted arguments, a
    readable input and, when the tempo is detected, a beat tracker that
    returns the tempo [b]. *)
Lemma changeBPM_reaches_stretch (i o : string) (t f : pyval) (w : world)
    (fi : file) (s : sound) (b : Q) :
  truthy t <> truthy f -> fs w !! i = Some fi -> audio fi = Some s ->
  (truthy t = true -> tempo_found w s b) ->
  exists w1,
    changeBPM i o t f w = stretch_and_export o (factor_used t f b) w1 /\
    fs w1 !! tempInp = Some (File (Some s) "wav" None) /\
    rubberband w1 = rubberband w /\ encoder_tags w1 = encoder_tags w.
Proof.
  intros Hv Hi Hs Hfound. rewrite (changeBPM_accepts _ _ _ _ Hv). unfold factor_used.
  destruct (truthy t) eqn:Ht.
  - destruct t as [bpm|]; [|discriminate].
    eexists. split;
      [exact (changeBPM_body_detect i o bpm b f w fi s Hi Hs Ht (Hfound eq_refl))|].
    split; [rewrite fs_detected; apply fs_converted|]. split; reflexivity.
  - eexists. split; [exact (changeBPM_body_no_detect i o t f w fi s Hi Hs Ht)|].
    split; [apply fs_converted|]. split; reflexivity.
Qed.

Lemma changeBPM_success (i o : string) (t f : pyval) (w : world)
    (fi : file) (s out : sound) (b : Q) (bin : list arg -> sound -> Z * sound) :
  truthy t <> truthy f -> fs w !! i = Some fi -> audio fi = Some s ->
  (truthy t = true -> tempo_found w s b) ->
  o <> tempInp -> o <> tempOut ->
  rubberband w = Some bin ->
  bin (rubberband_argv tempInp tempOut (factor_used t f b)) s = (0%Z, out) ->
  exists w',
    changeBPM i o t f w = (Ok tt, w') /\
    fs w' !! o = Some (output_file o out w) /\
    fs w' !! tempInp = None /\ fs w' !! tempOut = None.
Proof.
  intros Hv Hi Hs Hfound Ho1 Ho2 Hr Hb.
  destruct (changeBPM_reaches_stretch i o t f w fi s b Hv Hi Hs Hfound)
    as (w1 & Hstage & Htemp & Hr1 & He1).
  destruct (stretch_and_export_output o _ w1 bin _ s out Ho1 Ho2
              (eq_trans Hr1 Hr) Htemp eq_refl Hb) as (w' & Hrun & Hout).
  exists w'. rewrite Hstage. split; [exact Hrun|]. split.
  - rewrite Hout. unfold output_file. rewrite He1. reflexivity.
  - exact (stretch_and_export_ensures o _ w1 tt w' Hrun).
Qed.

(** X1: for accepted arguments, a readable input, a beat tracker that
    returns a tempo when the tempo is to be detected, an output path in the
    working directory (no [/] in it) that is not one of the two temporary
    names, and a stretcher that exits with status 0 on the factor used,
    [changeBPM] returns; the output path then holds the waveform the
    stretcher wrote (as MP3 with the encoder's tag header when the path ends
    in [.mp3], as the untagged WAV otherwise) and the temporary files are
    gone. *)
Theorem changeBPM_success_output (i o : string) (t f : pyval) (w : world)
    (fi : file) (s out : sound) (originalBPM : Q)
    (bin : list arg -> sound -> Z * sound) :
  truthy t <> truthy f -> fs w !! i = Some fi -> audio fi = Some s ->
  (truthy t = true -> tempo_found w s originalBPM) ->
  contains "/" o = false -> o <> tempInp -> o <> tempOut ->
  rubberband w = Some bin ->
  bin (rubberband_argv tempInp tempOut (factor_used t f originalBPM)) s = (0%Z, out) ->
  exists w',
    changeBPM i o t f w = (Ok tt, w') /\
    fs w' !! o = Some (output_file o out w) /\
    fs w' !! tempInp = None /\ fs w' !! tempOut = None.
Proof.
  intros Hv Hi Hs Hfound _ Ho1 Ho2 Hr Hb.
  destruct (changeBPM_success i o t f w fi s out originalBPM bin
              Hv Hi Hs Hfound Ho1 Ho2 Hr Hb)
    as (w' & Hrun & Hout & Htemps).
  exists w'. split; [exact Hrun|]. split; [exact Hout | exact Htemps].
Qed.

Lemma changeBPM_success_output_witness :
  exists w',
    changeBPM "music/song.mp3" "out.flac" (Some 100%Q) None studio = (Ok tt, w') /\
    fs w' !! "out.flac" = Some (output_file "out.flac" "song~" studio) /\
    fs w' !! tempInp = None /\ fs w' !! tempOut = None.
Proof.
  apply (changeBPM_success_output "music/song.mp3" "out.flac" (Some 100%Q) None studio
           song_mp3 "song" "song~" 120%Q rubberband_ok);
    try reflexivity; try discriminate.
  intros _. exists []. reflexivity.
Defined.

(** X2: when the output path is one of the two temporary names, the call
    returns under the same conditions (accepted arguments, a readable input,
    a tempo when it is to be detected, a stretcher that exits with status
    0), and there is no file at the output path afterwards: the removal of
    the temporary files took it. *)
Theorem changeBPM_temp_named_output (i o : string) (t f : pyval) (w : world)
    (fi : file) (s out : sound) (originalBPM : Q)
    (bin : list arg -> sound -> Z * sound) :
  truthy t <> truthy f -> fs w !! i = Some fi -> audio fi = Some s ->
  (truthy t = true -> tempo_found w s originalBPM) ->
  o = tempInp \/ o = tempOut ->
  rubberband w = Some bin ->
  bin (rubberband_argv tempInp tempOut (factor_used t f originalBPM)) s = (0%Z, out) ->
  exists w',
    changeBPM i o t f w = (Ok tt, w') /\ fs w' !! o = None.
Proof.
  intros Hv Hi Hs Hfound Ho Hr Hb.
  destruct (changeBPM_reaches_stretch i o t f w fi s originalBPM Hv Hi Hs Hfound)
    as (w1 & Hstage & Htemp & Hr1 & _).
  destruct (stretch_and_export_ok o _ w1 bin _ s out (eq_trans Hr1 Hr) Htemp eq_refl Hb)
    as (w' & Hrun).
  exists w'. rewrite Hstage. split; [exact Hrun|].
  destruct (stretch_and_export_ensures o _ w1 tt w' Hrun) as [H1 H2].
  destruct Ho as [-> | ->]; assumption.
Qed.

Lemma changeBPM_temp_named_output_witness :
  exists w',
    changeBPM "music/song.mp3" tempOut (Some 100%Q) None studio = (Ok tt, w') /\
    fs w' !! tempOut = None.
Proof.
  apply (changeBPM_temp_named_output "music/song.mp3" tempOut (Some 100%Q) None studio
           song_mp3 "song" "song~" 120%Q rubberband_ok);
    try reflexivity; try discriminate.
  - intros _. exists []. reflexivity.
  - right. reflexivity.
Defined.

(** ** The converter and the detector *)

(** X3: [convertToWav] on a readable input writes, at the output path, a
    WAV file with the waveform of the input and without tags, and leaves the
    other files as they were; on a missing or undecodable input it raises
    after the attempt to read, and writes nothing. *)
Theorem convertToWav_spec (inputPath outputPath : string) (w : world) :
  (forall fi s, fs w !! inputPath = Some fi -> audio fi = Some s ->
     exists w',
       convertToWav inputPath outputPath w = (Ok tt, w') /\
       fs w' !! outputPath = Some (File (Some s) "wav" None) /\
       (forall p, p <> outputPath -> fs w' !! p = fs w !! p)) /\
  ((fs w !! inputPath ≫= audio) = None ->
     exists e,
       convertToWav inputPath outputPath w
         = (Raise e, add_event (EvFromFile inputPath) w) /\
       (e = FileNotFoundError inputPath \/ e = CouldntDecodeError inputPath)).
Proof.
  split.
  - intros fi s Hi Hs. unfold convertToWav. unfold_collaborators. exec.
    rewrite export_wav_eqb. eexists. split; [reflexivity|].
    autorewrite with world. split; [apply lookup_insert_eq|].
    intros p Hp. apply lookup_insert_ne. congruence.
  - intros H. unfold convertToWav. unfold_collaborators.
    destruct (fs w !! inputPath) as [fi|] eqn:Hi; simpl in H.
    + exec. eexists. split; [reflexivity | right; reflexivity].
    + exec. eexists. split; [reflexivity | left; reflexivity].
Qed.

Lemma convertToWav_spec_witness :
  (exists w',
     convertToWav "music/song.mp3" tempInp studio = (Ok tt, w') /\
     fs w' !! tempInp = Some (File (Some "song") "wav" None) /\
     (forall p, p <> tempInp -> fs w' !! p = fs studio !! p)) /\
  (exists e,
     convertToWav "attic/cover.jpg" tempInp attic
       = (Raise e, add_event (EvFromFile "attic/cover.jpg") attic) /\
     (e = FileNotFoundError "attic/cover.jpg" \/ e = CouldntDecodeError "attic/cover.jpg")).
Proof.
  split.
  - apply (proj1 (convertToWav_spec "music/song.mp3" tempInp studio) song_mp3 "song");
      reflexivity.
  - apply (proj2 (convertToWav_spec "attic/cover.jpg" tempInp attic)). reflexivity.
Defined.

(** X4: [detectBPM] never writes a file.  On a readable file it loads the
    file, runs the beat tracker and subscripts the tempo: when the tracker
    returns an array, the result is its first element; when it returns a
    plain float (no onset found), the subscript raises [TypeError]; on an
    empty array it raises [IndexError].  On a missing file it raises
    [FileNotFoundError], on an undecodable one [NoBackendError], both at the
    load, before any beat tracking. *)
Theorem detectBPM_spec (filePath : string) (w : world) :
  fs (snd (detectBPM filePath w)) = fs w /\
  (forall fi s, fs w !! filePath = Some fi -> audio fi = Some s ->
     let tracked := add_event EvBeatTrack (add_event (EvLibrosaLoad filePath) w) in
     (forall b more, beat_track w s = TempoArray (b :: more) ->
        detectBPM filePath w = (Ok b, tracked)) /\
     (forall x, beat_track w s = TempoScalar x ->
        detectBPM filePath w = (Raise TypeError, tracked)) /\
     (beat_track w s = TempoArray [] ->
        detectBPM filePath w = (Raise IndexError, tracked))) /\
  (fs w !! filePath = None ->
     detectBPM filePath w
       = (Raise (FileNotFoundError filePath), add_event (EvLibrosaLoad filePath) w)) /\
  (forall fi, fs w !! filePath = Some fi -> audio fi = None ->
     detectBPM filePath w
       = (Raise (NoBackendError filePath), add_event (EvLibrosaLoad filePath) w)).
Proof.
  unfold detectBPM, librosa_load, librosa_beat_track, subscript0.
  split; [|split; [|split]].
  - run. destruct (fs w !! filePath) as [fi|]; [|reflexivity].
    destruct (audio fi) as [s|]; [|reflexivity].
    run. destruct (beat_track w s) as [[|b more]|x]; reflexivity.
  - intros fi s Hi Hs. cbv zeta.
    split; [|split]; intros; exec; reflexivity.
  - intros Hi. exec. reflexivity.
  - intros fi Hi Hs. exec. reflexivity.
Qed.

Lemma detectBPM_spec_witness :
  detectBPM "music/song.mp3" studio =
    (Ok 120%Q,
     add_event EvBeatTrack (add_event (EvLibrosaLoad "music/song.mp3") studio)) /\
  detectBPM "music/song.mp3" studio_silent =
    (Raise TypeError,
     add_event EvBeatTrack (add_event (EvLibrosaLoad "music/song.mp3") studio_silent)) /\
  detectBPM "attic/cover.jpg" attic
    = (Raise (NoBackendError "attic/cover.jpg"),
       add_event (EvLibrosaLoad "attic/cover.jpg") attic).
Proof.
  split; [|split].
  - apply (proj1 (proj1 (proj2 (detectBPM_spec "music/song.mp3" studio))
                    song_mp3 "song" eq_refl eq_refl) 120%Q []).
    reflexivity.
  - apply (proj1 (proj2 (proj1 (proj2 (detectBPM_spec "music/song.mp3" studio_silent))
                    song_mp3 "song" eq_refl eq_refl)) 0%Q).
    reflexivity.
  - apply (proj2 (proj2 (proj2 (detectBPM_spec "attic/cover.jpg" attic))) cover_jpg);
      reflexivity.
Defined.

(** ** What [changeBPM] leaves alone *)

(** X5: when the input cannot be read, [changeBPM] with accepted arguments
    raises at the first step: the only call made is the attempt to decode
    the input, no temporary file is written and the binary is not called. *)
Theorem changeBPM_unreadable_input (i o : string) (t f : pyval) (w : world) :
  truthy t <> truthy f -> (fs w !! i ≫= audio) = None ->
  exists e,
    changeBPM i o t f w = (Raise e, add_event (EvFromFile i) w) /\
    (e = FileNotFoundError i \/ e = CouldntDecodeError i).
Proof.
  intros Hv H. rewrite (changeBPM_accepts _ _ _ _ Hv).
  rewrite changeBPM_body_stages. unfold convertToWav. unfold_collaborators.
  destruct (fs w !! i) as [fi|] eqn:Hi; simpl in H.
  - exec. eexists. split; [reflexivity | right; reflexivity].
  - exec. eexists. split; [reflexivity | left; reflexivity].
Qed.

Lemma changeBPM_unreadable_input_witness :
  exists e,
    changeBPM "attic/cover.jpg" "out.mp3" (Some 128%Q) None attic
      = (Raise e, add_event (EvFromFile "attic/cover.jpg") attic) /\
    (e = FileNotFoundError "attic/cover.jpg" \/ e = CouldntDecodeError "attic/cover.jpg").
Proof.
  apply (changeBPM_unreadable_input "attic/cover.jpg" "out.mp3" (Some 128%Q) None attic).
  - discriminate.
  - reflexivity.
Defined.

(** X6: whatever its arguments and its outcome, [changeBPM] leaves every
    file other than the two temporary files and the output as it was. *)
Theorem changeBPM_writes_only (p i o : string) (t f : pyval) (w : world) :
  p <> tempInp -> p <> tempOut -> p <> o ->
  fs (snd (changeBPM i o t f w)) !! p = fs w !! p.
Proof.
  intros H1 H2 H3.
  pose proof (changeBPM_keeps p i o t f H1 H2 H3) as Hk.
  unfold steps, keeps in Hk. apply Hk.
Qed.

Lemma changeBPM_writes_only_witness :
  fs (snd (changeBPM "music/song.mp3" "out.mp3" (Some 100%Q) None studio))
    !! "music/take.wav" = fs studio !! "music/take.wav".
Proof.
  apply (changeBPM_writes_only "music/take.wav" "music/song.mp3" "out.mp3"
           (Some 100%Q) None studio); discriminate.
Defined.

(** ** [main] *)

(** X7: for an input whose path contains [.mp3], the output name differs
    from the input name, and the input file is as it was after the run of
    [main], whether the run returns or raises. *)
Theorem main_preserves_mp3_input (bpm : Z) (factor : pyval) (inputSong : string) (w : world) :
  contains ".mp3" inputSong = true ->
  outputSong bpm inputSong <> inputSong /\
  fs (snd (main bpm factor inputSong w)) !! inputSong = fs w !! inputSong.
Proof.
  intros H. split.
  - unfold outputSong. apply str_replace_present. exact H.
  - apply main_keeps_mp3_input. exact H.
Qed.

Lemma main_preserves_mp3_input_witness :
  outputSong 128 "music/song.mp3" <> "music/song.mp3" /\
  fs (snd (main 128 None "music/song.mp3" studio_no_rubberband)) !! "music/song.mp3"
    = fs studio_no_rubberband !! "music/song.mp3".
Proof.
  apply (main_preserves_mp3_input 128 None "music/song.mp3" studio_no_rubberband).
  reflexivity.
Defined.

Lemma copyMetadata_emits (a b : string) :
  steps (emits (fun e => ~ is_pipeline e)) (copyMetadata a b).
Proof. unfold_program. emits_go; intros []. Qed.

(** X8: with a zero [bpm] and no factor, [main] does not call [changeBPM]:
    the run is the status line followed by the copy of the tags, and none
    of its events is a decoding, a detection, a call of the binary or a
    removal. *)
Theorem main_zero_bpm (factor : pyval) (inputSong : string) (w : world) :
  truthy factor = false ->
  main 0 factor inputSong w =
    (print (MsgLoading inputSong) ;;
     copyMetadata inputSong (outputSong 0 inputSong)) w /\
  exists l,
    trace (snd (main 0 factor inputSong w)) = (trace w ++ l)%list /\
    Forall (fun e => ~ is_pipeline e) l.
Proof.
  intros Hf.
  assert (Hmain : main 0 factor inputSong w =
    (print (MsgLoading inputSong) ;;
     copyMetadata inputSong (outputSong 0 inputSong)) w).
  { unfold main. rewrite Hf. reflexivity. }
  split; [exact Hmain|]. rewrite Hmain.
  assert (Hs : steps (emits (fun e => ~ is_pipeline e))
                 (print (MsgLoading inputSong) ;;
                  copyMetadata inputSong (outputSong 0 inputSong))).
  { apply steps_bind; [typeclasses eauto | | intros _; apply copyMetadata_emits].
    apply steps_emit. intros w0. apply emits_add_event. intros []. }
  exact (Hs w).
Qed.

Lemma main_zero_bpm_witness :
  main 0 None "music/song.mp3" studio =
    (print (MsgLoading "music/song.mp3") ;;
     copyMetadata "music/song.mp3" (outputSong 0 "music/song.mp3")) studio /\
  exists l,
    trace (snd (main 0 None "music/song.mp3" studio)) = (trace studio ++ l)%list /\
    Forall (fun e => ~ is_pipeline e) l.
Proof.
  apply (main_zero_bpm None "music/song.mp3" studio). reflexivity.
Defined.

(** ** The batch driver on an empty or missing folder *)

(** X9: on an empty folder the batch returns, having only listed the folder;
    on a folder that cannot be listed it raises, and no file is processed. *)
Theorem run_empty_or_missing (folder : string) (bpm : Z) (w : world) :
  (listing w !! folder = Some [] ->
     run folder bpm w = (Ok tt, add_event (EvListdir folder) w)) /\
  (listing w !! folder = None ->
     run folder bpm w
       = (Raise (FileNotFoundError folder), add_event (EvListdir folder) w)).
Proof.
  split; intros H; unfold run, os_listdir; exec; reflexivity.
Qed.

Lemma run_empty_or_missing_witness :
  run "cellar" 128 cellar = (Ok tt, add_event (EvListdir "cellar") cellar) /\
  run "nowhere" 128 cellar
    = (Raise (FileNotFoundError "nowhere"), add_event (EvListdir "nowhere") cellar).
Proof.
  split.
  - apply (proj1 (run_empty_or_missing "cellar" 128 cellar)). reflexivity.
  - apply (proj2 (run_empty_or_missing "nowhere" 128 cellar)). reflexivity.
Defined.

(** ** One MP3 through [main] *)

Lemma length_append (a b : string) :
  String.length (a ++ b) = (String.length a + String.length b)%nat.
Proof. induction a as [|c a IH]; simpl; [reflexivity | rewrite IH; reflexivity]. Qed.

Lemma substring_all (b : string) : substring 0 (String.length b) b = b.
Proof. induction b as [|c b IH]; simpl; [reflexivity | rewrite IH; reflexivity]. Qed.

Lemma substring_append (a b : string) :
  substring (String.length a) (String.length b) (a ++ b) = b.
Proof. induction a as [|c a IH]; simpl; [apply substring_all | exact IH]. Qed.

Lemma endswith_append (a b : string) : endswith (a ++ b) b = true.
Proof.
  unfold endswith. rewrite length_append. apply andb_true_iff. split.
  - apply Nat.leb_le. lia.
  - rewrite Nat.add_sub, substring_append. apply String.eqb_refl.
Qed.

Lemma endswith_mp3_not_temp (p : string) :
  endswith p ".mp3" = true -> p <> tempInp /\ p <> tempOut.
Proof. intros H. split; intros ->; discriminate H. Qed.

Lemma contains_append_mp3 (a : string) : contains ".mp3" (a ++ ".mp3") = true.
Proof.
  induction a as [|c a IH]; [reflexivity|].
  change (String c a ++ ".mp3") with (String c (a ++ ".mp3")).
  rewrite contains_cons, IH. apply orb_true_r.
Qed.

(** The tags of [a] onto an existing file [b]. *)
Lemma copyMetadata_onto_existing (a b : string) (w : world) (fa g : file) (t : tagset) :
  fs w !! a = Some fa -> tags fa = Some t -> fs w !! b = Some g ->
  exists w',
    copyMetadata a b w = (Ok tt, w') /\
    fs w' !! b = Some (File (audio g) (container g) (Some t)) /\
    (forall p, p <> b -> fs w' !! p = fs w !! p).
Proof.
  intros Ha Ht Hb. unfold copyMetadata. unfold_collaborators. exec.
  destruct (tags g) as [tg|] eqn:Htg; exec;
    (eexists; split; [reflexivity|]); autorewrite with world;
    (split; [rewrite lookup_insert_eq; reflexivity|]);
    intros p Hp; rewrite ?lookup_insert_ne by congruence; reflexivity.
Qed.

(** X10: one MP3 through [main].  For an input [name.mp3] (no other [.mp3] in
    the path) that is readable and tagged, a non-zero [bpm], no factor, a
    beat tracker that returns a tempo for it, and a stretcher that exits
    with status 0 on the quotient of the detected tempo
    by [bpm]: [main] returns; the file [name_<bpm>BPM.mp3] holds the
    waveform the stretcher wrote, as MP3, with the tag set of the input; the
    input is as it was; the temporary files are gone. *)
Theorem main_mp3_end_to_end (bpm : Z) (name : string) (w : world)
    (fi : file) (s out : sound) (tg : tagset) (originalBPM : Q)
    (bin : list arg -> sound -> Z * sound) :
  let inputSong := name ++ ".mp3" in
  let output := name ++ "_" ++ str_int bpm ++ "BPM.mp3" in
  contains ".mp3" name = false -> bpm <> 0%Z ->
  fs w !! inputSong = Some fi -> audio fi = Some s -> tags fi = Some tg ->
  tempo_found w s originalBPM ->
  rubberband w = Some bin ->
  bin (rubberband_argv tempInp tempOut (Some (originalBPM / inject_Z bpm)%Q)) s
    = (0%Z, out) ->
  exists w',
    main bpm None inputSong w = (Ok tt, w') /\
    fs w' !! output = Some (File (Some out) "mp3" (Some tg)) /\
    fs w' !! inputSong = Some fi /\
    fs w' !! tempInp = None /\ fs w' !! tempOut = None.
Proof.
  intros inputSong output Hname Hbpm Hi Hs Htg Hfound Hr Hb.
  assert (Ho : outputSong bpm inputSong = output).
  { unfold outputSong. apply str_replace_extension. exact Hname. }
  assert (Hend : endswith output ".mp3" = true).
  { unfold output.
    change ("_" ++ str_int bpm ++ "BPM.mp3") with ("_" ++ str_int bpm ++ "BPM" ++ ".mp3").
    rewrite <- !append_assoc. apply endswith_append. }
  destruct (endswith_mp3_not_temp output Hend) as [Ho1 Ho2].
  destruct (endswith_mp3_not_temp inputSong (endswith_append name ".mp3")) as [Hi1 Hi2].
  assert (Hio : inputSong <> output).
  { rewrite <- Ho. apply not_eq_sym. unfold outputSong.
    apply str_replace_present. apply contains_append_mp3. }
  assert (Htb : truthy_int bpm = true).
  { unfold truthy_int. apply Z.eqb_neq in Hbpm. rewrite Hbpm. reflexivity. }
  unfold main. rewrite Ho. cbn [truthy]. rewrite Htb.
  rewrite bind_run. cbn [print emit]. rewrite bind_run.
  set (w0 := add_event (EvPrint (MsgLoading inputSong)) w).
  destruct (changeBPM_success inputSong output (Some (inject_Z bpm)) None w0 fi s out
              originalBPM bin)
    as (w1 & Hrun & Hout & Ht1 & Ht2); try assumption.
  { rewrite truthy_inject_Z, Htb. discriminate. }
  { intros _. exact Hfound. }
  { unfold factor_used. rewrite truthy_inject_Z, Htb. exact Hb. }
  rewrite Hrun.
  assert (Hkeep : fs w1 !! inputSong = Some fi).
  { pose proof (changeBPM_keeps inputSong inputSong output (Some (inject_Z bpm)) None
                  Hi1 Hi2 Hio w0) as Hk.
    unfold keeps in Hk. rewrite Hrun in Hk. cbn [snd] in Hk. rewrite Hk. exact Hi. }
  destruct (copyMetadata_onto_existing inputSong output w1 fi _ tg Hkeep Htg Hout)
    as (w2 & Hcopy & Hnew & Hframe).
  exists w2. split; [exact Hcopy|].
  unfold output_file in Hnew. rewrite Hend in Hnew. cbn [audio container] in Hnew.
  split; [exact Hnew|]. split; [|split].
  - rewrite Hframe by exact Hio. exact Hkeep.
  - rewrite Hframe by (apply not_eq_sym; exact Ho1). exact Ht1.
  - rewrite Hframe by (apply not_eq_sym; exact Ho2). exact Ht2.
Qed.

Lemma main_mp3_end_to_end_witness :
  exists w',
    main 100 None ("music/song" ++ ".mp3") studio = (Ok tt, w') /\
    fs w' !! ("music/song" ++ "_" ++ str_int 100 ++ "BPM.mp3")
      = Some (File (Some "song~") "mp3" (Some song_tags)) /\
    fs w' !! ("music/song" ++ ".mp3") = Some song_mp3 /\
    fs w' !! tempInp = None /\ fs w' !! tempOut = None.
Proof.
  apply (main_mp3_end_to_end 100 "music/song" studio song_mp3 "song" "song~"
           song_tags 120%Q rubberband_ok);
    try reflexivity.
  - discriminate.
  - exists []. reflexivity.
Defined.

(** ** Copying the tags twice *)

Lemma copyMetadata_result (a b : string) (w : world) (fa : file) (t : tagset) :
  fs w !! a = Some fa -> tags fa = Some t ->
  exists w',
    copyMetadata a b w = (Ok tt, w') /\
    fs w' = <[b := retagged (fs w !! b) t]> (fs w).
Proof.
  intros Ha Ht. unfold copyMetadata. unfold_collaborators. exec.
  destruct (fs w !! b) as [g|] eqn:Hb; exec.
  - destruct (tags g) as [tg|] eqn:Htg; exec;
      (eexists; split; [reflexivity|]); autorewrite with world; cbn [retagged audio container].
    + apply insert_insert_eq.
    + reflexivity.
  - eexists. split; [reflexivity|]. autorewrite with world. reflexivity.
Qed.

Lemma copyMetadata_ok_inv (a b : string) (w w1 : world) :
  copyMetadata a b w = (Ok tt, w1) ->
  exists fa t, fs w !! a = Some fa /\ tags fa = Some t.
Proof.
  intros H. unfold copyMetadata, ID3 in H.
  destruct (fs w !! a) as [fa|] eqn:Ha.
  - destruct (tags fa) as [t|] eqn:Ht; [eauto|].
    revert H. exec. discriminate.
  - revert H. exec. discriminate.
Qed.

Lemma retagged_tags (old : option file) (t : tagset) : tags (retagged old t) = Some t.
Proof. destruct old; reflexivity. Qed.

Lemma retagged_again (old : option file) (t : tagset) :
  retagged (Some (retagged old t)) t = retagged old t.
Proof. destruct old; reflexivity. Qed.

(** X11: copying the tags is idempotent.  When [copyMetadata] has returned,
    running it again with the same two paths returns as well and leaves the
    file system exactly as the first run left it (also when the two paths are
    the same, and when the new file did not exist before the first run). *)
Theorem copyMetadata_idempotent (a b : string) (w w1 : world) :
  copyMetadata a b w = (Ok tt, w1) ->
  exists w2, copyMetadata a b w1 = (Ok tt, w2) /\ fs w2 = fs w1.
Proof.
  intros H.
  destruct (copyMetadata_ok_inv a b w w1 H) as (fa & t & Ha & Ht).
  destruct (copyMetadata_result a b w fa t Ha Ht) as (w1' & H1 & Hfs1).
  rewrite H in H1. injection H1 as <-.
  assert (Ha1 : exists fa1, fs w1 !! a = Some fa1 /\ tags fa1 = Some t).
  { rewrite Hfs1. destruct (decide (b = a)) as [-> | Hne].
    - rewrite lookup_insert_eq. eexists. split; [reflexivity | apply retagged_tags].
    - rewrite lookup_insert_ne by exact Hne. eauto. }
  destruct Ha1 as (fa1 & Ha1 & Ht1).
  destruct (copyMetadata_result a b w1 fa1 t Ha1 Ht1) as (w2 & H2 & Hfs2).
  exists w2. split; [exact H2|].
  rewrite Hfs2, Hfs1. rewrite lookup_insert_eq, retagged_again.
  apply insert_insert_eq.
Qed.

Lemma copyMetadata_idempotent_witness :
  exists w2,
    copyMetadata "music/song.mp3" "music/take.wav"
      (snd (copyMetadata "music/song.mp3" "music/take.wav" studio)) = (Ok tt, w2) /\
    fs w2 = fs (snd (copyMetadata "music/song.mp3" "music/take.wav" studio)).
Proof.
  apply (copyMetadata_idempotent "music/song.mp3" "music/take.wav" studio).
  reflexivity.
Defined.

(** ** An input that is not an MP3 *)

Lemma endswith_inv (s b : string) :
  endswith s b = true -> exists a, s = a ++ b.
Proof.
  unfold endswith. induction s as [|c s IH]; intros H;
    apply andb_true_iff in H as [Hlen Heq];
    apply Nat.leb_le in Hlen; apply String.eqb_eq in Heq.
  - destruct b; [exists ""; reflexivity | simpl in Hlen; lia].
  - destruct (Nat.eq_dec (String.length b) (String.length (String c s))) as [E | E].
    + rewrite E, Nat.sub_diag in Heq. rewrite substring_all in Heq.
      exists "". rewrite <- Heq. reflexivity.
    + assert (Hle : (String.length b <= String.length s)%nat) by (simpl in *; lia).
      assert (Hsub : (String.length (String c s) - String.length b
                      = S (String.length s - String.length b))%nat) by (simpl; lia).
      rewrite Hsub in Heq. cbn [substring] in Heq.
      destruct IH as [a Ha].
      { apply andb_true_iff. split; [apply Nat.leb_le; exact Hle|].
        apply String.eqb_eq. exact Heq. }
      exists (String c a). rewrite Ha at 1. reflexivity.
Qed.

Lemma not_contains_not_endswith (s : string) :
  contains ".mp3" s = false -> endswith s ".mp3" = false.
Proof.
  intros H. destruct (endswith s ".mp3") eqn:E; [|reflexivity].
  destruct (endswith_inv s ".mp3" E) as [a ->].
  rewrite contains_append_mp3 in H. discriminate H.
Qed.

(** X12: an input without [.mp3] in its path.  For such an input (readable,
    not one of the temporary names), a non-zero [bpm], no factor, a beat
    tracker that returns a tempo for it and a
    stretcher that exits with status 0, the output name is the input name:
    the stretched WAV is renamed over the input, whose tags are thereby
    lost, and [main] raises at the copy of the tags. *)
Theorem main_non_mp3_input (bpm : Z) (inputSong : string) (w : world)
    (fi : file) (s out : sound) (originalBPM : Q)
    (bin : list arg -> sound -> Z * sound) :
  contains ".mp3" inputSong = false ->
  inputSong <> tempInp -> inputSong <> tempOut -> bpm <> 0%Z ->
  fs w !! inputSong = Some fi -> audio fi = Some s ->
  tempo_found w s originalBPM ->
  rubberband w = Some bin ->
  bin (rubberband_argv tempInp tempOut (Some (originalBPM / inject_Z bpm)%Q)) s
    = (0%Z, out) ->
  outputSong bpm inputSong = inputSong /\
  fst (main bpm None inputSong w) = Raise (ID3NoHeaderError inputSong) /\
  fs (snd (main bpm None inputSong w)) !! inputSong
    = Some (File (Some out) "wav" None).
Proof.
  intros Hc Hi1 Hi2 Hbpm Hi Hs Hfound Hr Hb.
  assert (Ho : outputSong bpm inputSong = inputSong).
  { unfold outputSong. apply str_replace_absent. exact Hc. }
  assert (Htb : truthy_int bpm = true).
  { unfold truthy_int. apply Z.eqb_neq in Hbpm. rewrite Hbpm. reflexivity. }
  split; [exact Ho|].
  unfold main. rewrite Ho. cbn [truthy]. rewrite Htb.
  rewrite bind_run. cbn [print emit]. rewrite bind_run.
  set (w0 := add_event (EvPrint (MsgLoading inputSong)) w).
  destruct (changeBPM_success inputSong inputSong (Some (inject_Z bpm)) None w0 fi s out
              originalBPM bin)
    as (w1 & Hrun & Hout & _); try assumption.
  { rewrite truthy_inject_Z, Htb. discriminate. }
  { intros _. exact Hfound. }
  { unfold factor_used. rewrite truthy_inject_Z, Htb. exact Hb. }
  rewrite Hrun. unfold output_file in Hout.
  rewrite (not_contains_not_endswith _ Hc) in Hout.
  unfold copyMetadata, ID3. exec. cbn [tags]. exec.
  split; [reflexivity | exact Hout].
Qed.

Lemma main_non_mp3_input_witness :
  outputSong 128 "music/take.wav" = "music/take.wav" /\
  fst (main 128 None "music/take.wav" studio) = Raise (ID3NoHeaderError "music/take.wav") /\
  fs (snd (main 128 None "music/take.wav" studio)) !! "music/take.wav"
    = Some (File (Some "take~") "wav" None).
Proof.
  apply (main_non_mp3_input 128 "music/take.wav" studio take_wav "take" "take~"
           120%Q rubberband_ok);
    try reflexivity; try discriminate.
  exists []. reflexivity.
Defined.

(** ** A recording without onsets *)

(** X13: with a target BPM, a readable input and a beat tracker that finds
    no onset (it returns a plain float), [changeBPM] raises [TypeError] at
    the subscript of the tempo, right after the beat tracking: the binary is
    not called, nothing is written at the output path (unless it is the
    temporary name), and the pre-stretch temporary WAV stays on disk. *)
Theorem changeBPM_no_onset (i o : string) (bpm x : Q) (f : pyval) (w : world)
    (fi : file) (s : sound) :
  truthy (Some bpm) = true -> truthy f = false ->
  fs w !! i = Some fi -> audio fi = Some s ->
  beat_track w s = TempoScalar x ->
  changeBPM i o (Some bpm) f w =
    (Raise TypeError,
     add_event EvBeatTrack (add_event (EvLibrosaLoad tempInp) (converted i s w))) /\
  fs (snd (changeBPM i o (Some bpm) f w)) !! tempInp = Some (File (Some s) "wav" None) /\
  (o <> tempInp -> fs (snd (changeBPM i o (Some bpm) f w)) !! o = fs w !! o).
Proof.
  intros Ht Hf Hi Hs Hbt.
  assert (Hrun : changeBPM i o (Some bpm) f w =
    (Raise TypeError,
     add_event EvBeatTrack (add_event (EvLibrosaLoad tempInp) (converted i s w)))).
  { rewrite changeBPM_accepts by (rewrite Ht, Hf; discriminate).
    rewrite changeBPM_body_stages. rewrite Ht.
    unfold convertToWav, detectBPM. unfold_collaborators.
    exec. rewrite export_wav_eqb. exec. cbn [audio]. exec. reflexivity. }
  rewrite Hrun. cbn [snd]. split; [reflexivity|]. autorewrite with world. split.
  - apply fs_converted.
  - intros Ho. unfold converted. autorewrite with world.
    apply lookup_insert_ne. congruence.
Qed.

Lemma changeBPM_no_onset_witness :
  changeBPM "music/song.mp3" "out.mp3" (Some 100%Q) None studio_silent =
    (Raise TypeError,
     add_event EvBeatTrack
       (add_event (EvLibrosaLoad tempInp) (converted "music/song.mp3" "song" studio_silent))) /\
  fs (snd (changeBPM "music/song.mp3" "out.mp3" (Some 100%Q) None studio_silent)) !! tempInp
    = Some (File (Some "song") "wav" None) /\
  ("out.mp3" <> tempInp ->
   fs (snd (changeBPM "music/song.mp3" "out.mp3" (Some 100%Q) None studio_silent)) !! "out.mp3"
     = fs studio_silent !! "out.mp3").
Proof.
  apply (changeBPM_no_onset "music/song.mp3" "out.mp3" 100%Q 0%Q None studio_silent
           song_mp3 "song"); reflexivity.
Defined.
